(** * AgriSite: the aggregation and reporting layer of [land_analysis]

  A shallow embedding of the Django application [agrisite/land_analysis]
  ([models.py], [forms.py], [utils.py], [views.py]) and the properties of
  its grouped queries, exports and document reports.

  Conventions of the embedding.
  - A [DecimalField(decimal_places=2)] value is the integer count of its
    hundredths ([decimal2]): [10.00] hectares is [1000].  Sums of such
    values are exact, as they are in the database.
  - Quotients are kept as exact rationals ([Q]).  Python's [Decimal]
    division rounds to the 28 significant digits of its context; the
    database computes [AVG] and [/] in floating point, and Django hands
    the result over rounded to 15 significant digits.  A [Q] here stands
    for the number that this rounding starts from: of a quotient of the
    database, the properties use only whether it is null.
  - Integers bound to a query are those of SQLite, Django's default
    database: 64 bits, signed.
  - A table is the list of its rows in the order in which the model's
    default manager yields them.
  - SQL [NULL] and Python [None] are [None]. *)

From Stdlib Require Import ZArith QArith List String Ascii Bool Lia Arith.
From Stdlib Require Import Qfield Sorted Permutation.
Import ListNotations.

Local Open Scope string_scope.
Local Open Scope list_scope.
Local Open Scope Z_scope.

(** ** Exceptions and the error monad of a [try] body *)

Inductive exception : Type :=
| DivisionByZero            (* decimal.DivisionByZero: x / 0 with x <> 0 *)
| InvalidOperation          (* decimal.InvalidOperation: 0 / 0 *)
| ValueError (msg : string)
| TypeError (msg : string)
| Http404 (msg : string)
| DoesNotExist (msg : string)
| DatabaseError (msg : string)
| LayoutError (msg : string)
| FieldError (msg : string)     (* django.core.exceptions.FieldError *)
| OverflowError (msg : string).

(** [str(e)] *)
Definition str_exception (e : exception) : string :=
  match e with
  | DivisionByZero => "[<class 'decimal.DivisionByZero'>]"
  | InvalidOperation => "[<class 'decimal.DivisionUndefined'>]"
  | ValueError m | TypeError m | Http404 m | DoesNotExist m
  | DatabaseError m | LayoutError m | FieldError m | OverflowError m => m
  end.

Definition exc (A : Type) : Type := (exception + A)%type.

Definition ret {A} (a : A) : exc A := inr a.
Definition raise {A} (e : exception) : exc A := inl e.
Definition bind {A B} (c : exc A) (k : A -> exc B) : exc B :=
  match c with
  | inl e => inl e
  | inr a => k a
  end.

Notation "x <- c ;; k" := (bind c (fun x => k))
  (at level 61, c at next level, right associativity).

(** ** Numbers *)

(** A [DecimalField] with two decimal places, counted in hundredths. *)
Definition decimal2 : Type := Z.

(** The exact value of a [decimal2]. *)
Definition dec_value (d : decimal2) : Q := d # 100.

(** Python's [Decimal.__truediv__] under the default context, which traps
  division by zero. *)
Definition decimal_div (a b : decimal2) : exc Q :=
  if b =? 0 then
    if a =? 0 then raise InvalidOperation else raise DivisionByZero
  else ret (dec_value a / dec_value b)%Q.

(** Python's [x or 0] on an optional number: [None] and zero are falsy. *)
Definition or_0 (x : option Z) : Z :=
  match x with
  | Some z => if z =? 0 then 0 else z
  | None => 0
  end.

Definition sumZ (l : list Z) : Z := fold_right Z.add 0 l.

(** ** models.py *)

Module Region.
Record t : Type := {
  id : Z;
  name : string;
  code : string;
  total_area : decimal2
}.
End Region.

Module LandHolder.
Record t : Type := {
  id : Z;
  name : string;
  ownership_type : string;
  contact_email : string;
  contact_phone : string;
  region_id : Z
}.
End LandHolder.

Module LandParcel.
Definition SOIL_TYPES : list (string * string) :=
  [("clay", "Clay"); ("sandy", "Sandy"); ("loamy", "Loamy");
   ("silt", "Silt"); ("peat", "Peat"); ("chalky", "Chalky")].

Record t : Type := {
  id : Z;
  land_holder_id : Z;
  parcel_id : string;
  total_area : decimal2;
  cultivated_area : decimal2;
  soil_type : string;
  latitude : option Z;
  longitude : option Z
}.

(** [get_soil_type_display]: the label of the choice, or the stored value
    when it is not one of the choices. *)
Definition get_soil_type_display (p : t) : string :=
  match find (fun c => String.eqb (fst c) (soil_type p)) SOIL_TYPES with
  | Some c => snd c
  | None => soil_type p
  end.
End LandParcel.

Module IrrigationSystem.
Record t : Type := {
  id : Z;
  land_parcel_id : Z;
  system_type : string;
  water_source : string;
  efficiency_rating : Z;
  annual_water_usage : decimal2;
  is_automated : bool
}.
End IrrigationSystem.

Module Crop.
Record t : Type := {
  id : Z;
  name : string;
  crop_type : string;
  season : string;
  growth_period : Z;
  water_requirement : decimal2
}.
End Crop.

Module CroppingPattern.
Record t : Type := {
  id : Z;
  land_parcel_id : Z;
  crop_id : Z;
  year : Z;
  season : string;
  area_allocated : decimal2;
  yield_amount : decimal2;
  revenue : decimal2
}.
End CroppingPattern.

(** The entity store: one list of rows per model. *)
Record store : Type := {
  regions : list Region.t;
  land_holders : list LandHolder.t;
  land_parcels : list LandParcel.t;
  irrigation_systems : list IrrigationSystem.t;
  crops : list Crop.t;
  cropping_patterns : list CroppingPattern.t
}.

Definition empty_store : store :=
  {| regions := []; land_holders := []; land_parcels := [];
     irrigation_systems := []; crops := []; cropping_patterns := [] |}.

(** ** The query layer (django.db.models) *)

Module ORM.

(** [Count('id')] over the rows of a query or of a group. *)
Definition Count {A} (rows : list A) : nat := List.length rows.

(** [Sum(field)]: [NULL] over no rows. *)
Definition Sum {A} (field : A -> Z) (rows : list A) : option Z :=
  match rows with
  | [] => None
  | _ => Some (sumZ (map field rows))
  end.

(** [Avg(field)] of an integer column: [NULL] over no rows. *)
Definition AvgInt {A} (field : A -> Z) (rows : list A) : option Q :=
  match rows with
  | [] => None
  | _ => Some (inject_Z (sumZ (map field rows))
               / inject_Z (Z.of_nat (List.length rows)))%Q
  end.

(** [Avg(field)] of a decimal column, as the exact value. *)
Definition Avg {A} (field : A -> decimal2) (rows : list A) : option Q :=
  match rows with
  | [] => None
  | _ => Some (dec_value (sumZ (map field rows))
               / inject_Z (Z.of_nat (List.length rows)))%Q
  end.

(** Rows by primary key, for the joins behind [a__b] lookups. *)
Definition get_region (db : store) (pk : Z) : option Region.t :=
  find (fun r => Region.id r =? pk) (regions db).
Definition get_land_holder (db : store) (pk : Z) : option LandHolder.t :=
  find (fun h => LandHolder.id h =? pk) (land_holders db).
Definition get_land_parcel (db : store) (pk : Z) : option LandParcel.t :=
  find (fun p => LandParcel.id p =? pk) (land_parcels db).
Definition get_crop (db : store) (pk : Z) : option Crop.t :=
  find (fun c => Crop.id c =? pk) (crops db).

(** [land_holder__region_id] of a parcel (inner join on the holder). *)
Definition parcel_region_id (db : store) (p : LandParcel.t) : option Z :=
  option_map LandHolder.region_id
    (get_land_holder db (LandParcel.land_holder_id p)).

(** [land_holder__region] of a parcel (inner joins on holder and region). *)
Definition parcel_region (db : store) (p : LandParcel.t)
  : option Region.t :=
  match get_land_holder db (LandParcel.land_holder_id p) with
  | Some h => get_region db (LandHolder.region_id h)
  | None => None
  end.

Definition opt_eqb (o : option Z) (z : Z) : bool :=
  match o with
  | Some x => x =? z
  | None => false
  end.

(** [.filter(land_holder__region_id=rid)] on parcels. *)
Definition parcels_in_region (db : store) (rid : Z)
           (qs : list LandParcel.t) : list LandParcel.t :=
  filter (fun p => opt_eqb (parcel_region_id db p) rid) qs.

(** [.filter(soil_type=s)] on parcels. *)
Definition parcels_of_soil (s : string) (qs : list LandParcel.t)
  : list LandParcel.t :=
  filter (fun p => String.eqb (LandParcel.soil_type p) s) qs.

(** [land_parcel__land_holder__region_id] and [land_parcel__soil_type] of
    a row that points to a parcel. *)
Definition via_parcel_region_id (db : store) (parcel_pk : Z) : option Z :=
  match get_land_parcel db parcel_pk with
  | Some p => parcel_region_id db p
  | None => None
  end.

Definition via_parcel_soil (db : store) (parcel_pk : Z) : option string :=
  option_map LandParcel.soil_type (get_land_parcel db parcel_pk).

Definition opt_str_eqb (o : option string) (s : string) : bool :=
  match o with
  | Some x => String.eqb x s
  | None => false
  end.

(** *** GROUP BY

    [qs.values(key).annotate(...)] groups the rows by [key] alone (the
    default ordering of a model does not enter the grouping, as from
    Django 3.1 on).  SQL leaves the order of the groups open; they are
    kept in the order in which their keys first occur. *)
Section GroupBy.
Context {A K : Type} (eqb : K -> K -> bool) (key : A -> K).

Fixpoint add_to_group (x : A) (groups : list (K * list A))
  : list (K * list A) :=
  match groups with
  | [] => [(key x, [x])]
  | (k, g) :: rest =>
      if eqb k (key x) then (k, g ++ [x]) :: rest
      else (k, g) :: add_to_group x rest
  end.

Definition group_by (rows : list A) : list (K * list A) :=
  fold_left (fun groups x => add_to_group x groups) rows [].
End GroupBy.

(** *** ORDER BY and slicing *)
Section OrderBy.
Context {A : Type} (le : A -> A -> bool).

Fixpoint insert_sorted (x : A) (l : list A) : list A :=
  match l with
  | [] => [x]
  | y :: ys => if le x y then x :: l else y :: insert_sorted x ys
  end.

Definition order_by (l : list A) : list A :=
  fold_right insert_sorted [] l.
End OrderBy.

(** [qs[:n]] *)
Definition limit {A} (n : nat) (l : list A) : list A := firstn n l.

End ORM.

(** ** Rows of the grouped queries

    A group has at least one row and the summed columns are [NOT NULL], so
    [Sum] over a group is a number; it is kept as the optional value that
    the query returns. *)

Module SoilRow.
Record t : Type := {
  soil_type : string;
  count : nat;
  total_area : option Z
}.
End SoilRow.

Module IrrigationRow.
Record t : Type := {
  system_type : string;
  count : nat;
  avg_efficiency : option Q;
  avg_water_usage : option Q
}.
End IrrigationRow.

Module CropRow.
Record t : Type := {
  crop__name : string;
  total_area : option Z;
  total_yield : option Z;
  total_revenue : option Z
}.
End CropRow.

Module YearRow.
Record t : Type := {
  year : Z;
  total_yield : option Z;
  total_revenue : option Z
}.
End YearRow.

Module OwnershipRow.
Record t : Type := {
  ownership_type : string;
  count : nat;
  total_area : option Z
}.
End OwnershipRow.

Module Queries.
Import ORM.

(** The rows of [rows] that have a key, with it (an inner join). *)
Definition keyed {A K} (key : A -> option K) (rows : list A)
  : list (K * A) :=
  flat_map (fun x => match key x with
                     | Some k => [(k, x)]
                     | None => []
                     end) rows.

(** [qs.values('soil_type').annotate(count=Count('id'),
    total_area=Sum('total_area'))] *)
Definition soil_distribution (qs : list LandParcel.t) : list SoilRow.t :=
  map (fun kg =>
         {| SoilRow.soil_type := fst kg;
            SoilRow.count := Count (snd kg);
            SoilRow.total_area := Sum LandParcel.total_area (snd kg) |})
      (group_by String.eqb LandParcel.soil_type qs).

(** [qs.values('system_type').annotate(count=Count('id'),
    avg_efficiency=Avg('efficiency_rating'),
    avg_water_usage=Avg('annual_water_usage'))] *)
Definition irrigation_distribution (qs : list IrrigationSystem.t)
  : list IrrigationRow.t :=
  map (fun kg =>
         {| IrrigationRow.system_type := fst kg;
            IrrigationRow.count := Count (snd kg);
            IrrigationRow.avg_efficiency :=
              AvgInt IrrigationSystem.efficiency_rating (snd kg);
            IrrigationRow.avg_water_usage :=
              Avg IrrigationSystem.annual_water_usage (snd kg) |})
      (group_by String.eqb IrrigationSystem.system_type qs).

Definition pattern_crop_name (db : store) (cp : CroppingPattern.t)
  : option string :=
  option_map Crop.name (get_crop db (CroppingPattern.crop_id cp)).

(** [qs.values('crop__name').annotate(total_area=Sum('area_allocated'),
    total_yield=Sum('yield_amount'), total_revenue=Sum('revenue'))] *)
Definition crop_totals (db : store) (qs : list CroppingPattern.t)
  : list CropRow.t :=
  map (fun kg =>
         let g := map snd (snd kg) in
         {| CropRow.crop__name := fst kg;
            CropRow.total_area := Sum CroppingPattern.area_allocated g;
            CropRow.total_yield := Sum CroppingPattern.yield_amount g;
            CropRow.total_revenue := Sum CroppingPattern.revenue g |})
      (group_by String.eqb fst (keyed (pattern_crop_name db) qs)).

(** [qs.values('year').annotate(total_yield=Sum('yield_amount'),
    total_revenue=Sum('revenue')).order_by('year')] *)
Definition production_trend (qs : list CroppingPattern.t)
  : list YearRow.t :=
  order_by (fun a b => YearRow.year a <=? YearRow.year b)
    (map (fun kg =>
            {| YearRow.year := fst kg;
               YearRow.total_yield :=
                 Sum CroppingPattern.yield_amount (snd kg);
               YearRow.total_revenue :=
                 Sum CroppingPattern.revenue (snd kg) |})
         (group_by Z.eqb CroppingPattern.year qs)).

Definition parcel_ownership_type (db : store) (p : LandParcel.t)
  : option string :=
  option_map LandHolder.ownership_type
    (get_land_holder db (LandParcel.land_holder_id p)).

(** [LandParcel.objects.values('land_holder__ownership_type').annotate(
    total_area=Sum('total_area'), parcel_count=Count('id'))] *)
Definition ownership_distribution (db : store) (qs : list LandParcel.t)
  : list OwnershipRow.t :=
  map (fun kg =>
         let g := map snd (snd kg) in
         {| OwnershipRow.ownership_type := fst kg;
            OwnershipRow.count := Count g;
            OwnershipRow.total_area := Sum LandParcel.total_area g |})
      (group_by String.eqb fst (keyed (parcel_ownership_type db) qs)).

End Queries.

(** ** utils.py *)

Module Utils.
Import ORM Queries.

(** A figure handed to [get_chart_image]: the data that was plotted.  The
    drawing itself (matplotlib, seaborn) is outside the repository. *)
Inductive chart : Type :=
| PieChart (title : string) (sizes : list (option Z)) (labels : list string)
| CountBarChart (title xlabel ylabel : string)
    (x : list string) (y : list nat)
| BarChart (title xlabel ylabel : string) (x : list string) (y : list Q)
| LineChart (title xlabel ylabel : string)
    (x : list Z) (y : list (option Z)).

(** [(df_crop['total_area'] > 0).any()] *)
Definition any_total_area_positive (df_crop : list CropRow.t) : bool :=
  existsb (fun r => match CropRow.total_area r with
                    | Some a => 0 <? a
                    | None => false
                    end) df_crop.

(** [df_crop['total_yield'] / df_crop['total_area']]: the element-wise
    quotient of two columns of [Decimal]s, row after row. *)
Fixpoint column_div (df_crop : list CropRow.t) : exc (list Q) :=
  match df_crop with
  | [] => ret []
  | r :: rest =>
      q <- match CropRow.total_yield r, CropRow.total_area r with
           | Some y, Some a => decimal_div y a
           | _, _ => raise (TypeError "unsupported operand type(s) for /")
           end ;;
      qs <- column_div rest ;;
      ret (q :: qs)
  end.

(** Chart 3 of [generate_land_analysis_charts]: the crop productivity bar
    chart, or no chart. *)
Definition crop_productivity_chart (db : store) : exc (option chart) :=
  let crop_data := limit 10 (crop_totals db (cropping_patterns db)) in
  match crop_data with
  | [] => ret None
  | _ =>
      if any_total_area_positive crop_data then
        productivity <- column_div crop_data ;;
        ret (Some (BarChart "Crop Productivity (Yield per Hectare)"
                     "Crop" "Productivity (tons/hectare)"
                     (map CropRow.crop__name crop_data) productivity))
      else ret None
  end.

Definition add_chart (name : string) (c : option chart)
           (charts : list (string * chart)) : list (string * chart) :=
  match c with
  | Some ch => charts ++ [(name, ch)]
  | None => charts
  end.

(** The body of the [try] of [generate_land_analysis_charts]. *)
Definition generate_land_analysis_charts_try (db : store)
  : exc (list (string * chart)) :=
  let charts := [] in
  let soil_data := soil_distribution (land_parcels db) in
  let charts :=
    add_chart "soil_distribution"
      (match soil_data with
       | [] => None
       | _ => Some (PieChart "Land Distribution by Soil Type"
                      (map SoilRow.total_area soil_data)
                      (map SoilRow.soil_type soil_data))
       end) charts in
  let irrigation_data := irrigation_distribution (irrigation_systems db) in
  let charts :=
    add_chart "irrigation_distribution"
      (match irrigation_data with
       | [] => None
       | _ => Some (CountBarChart "Irrigation System Distribution"
                      "System Type" "Count"
                      (map IrrigationRow.system_type irrigation_data)
                      (map IrrigationRow.count irrigation_data))
       end) charts in
  crop_chart <- crop_productivity_chart db ;;
  let charts := add_chart "crop_productivity" crop_chart charts in
  let trend_data := production_trend (cropping_patterns db) in
  let charts :=
    add_chart "production_trend"
      (match trend_data with
       | [] => None
       | _ => Some (LineChart "Year-wise Production Trend"
                      "Year" "Total Yield (tons)"
                      (map YearRow.year trend_data)
                      (map YearRow.total_yield trend_data))
       end) charts in
  let ownership_data := ownership_distribution db (land_parcels db) in
  let charts :=
    add_chart "ownership_distribution"
      (match ownership_data with
       | [] => None
       | _ => Some (PieChart "Land Distribution by Ownership Type"
                      (map OwnershipRow.total_area ownership_data)
                      (map OwnershipRow.ownership_type ownership_data))
       end) charts in
  ret charts.

(** [generate_land_analysis_charts()]: any exception empties the result. *)
Definition generate_land_analysis_charts (db : store)
  : list (string * chart) :=
  match generate_land_analysis_charts_try db with
  | inr charts => charts
  | inl _ => []
  end.

Record utilization : Type := {
  total_land : Z;
  cultivated_land : Z;
  utilization_rate : Q;
  uncultivated_land : Z
}.

(** The body of the [try] of [calculate_land_utilization_efficiency]. *)
Definition calculate_land_utilization_efficiency_try (db : store)
  : exc utilization :=
  let total_land := or_0 (Sum LandParcel.total_area (land_parcels db)) in
  let cultivated_land :=
    or_0 (Sum LandParcel.cultivated_area (land_parcels db)) in
  utilization_rate <-
    (if 0 <? total_land then
       q <- decimal_div cultivated_land total_land ;;
       ret (q * 100)%Q
     else ret 0%Q) ;;
  ret {| total_land := total_land;
         cultivated_land := cultivated_land;
         utilization_rate := utilization_rate;
         uncultivated_land := total_land - cultivated_land |}.

Definition calculate_land_utilization_efficiency (db : store)
  : utilization :=
  match calculate_land_utilization_efficiency_try db with
  | inr u => u
  | inl _ => {| total_land := 0; cultivated_land := 0;
                utilization_rate := 0%Q; uncultivated_land := 0 |}
  end.

End Utils.

(** ** forms.py *)

Module Forms.

(** [cleaned_data] of a [LandParcelForm]: a field is absent ([None]) when
    its own validation failed or when it was left empty. *)
Record cleaned_data : Type := {
  land_holder : option Z;
  parcel_id : option string;
  total_area : option decimal2;
  cultivated_area : option decimal2;
  soil_type : option string;
  latitude : option Z;
  longitude : option Z
}.

Inductive validation_error : Type :=
| ValidationError (field : string) (message : string).

(** Truth value of [cleaned_data.get(...)] of a decimal field: [None] and
    [Decimal('0')] are falsy. *)
Definition truthy (d : option decimal2) : bool :=
  match d with
  | Some z => negb (z =? 0)
  | None => false
  end.

(** [a > b] on two decimals that are present. *)
Definition gt (a b : option decimal2) : bool :=
  match a, b with
  | Some x, Some y => y <? x
  | _, _ => false
  end.

(** [LandParcelForm.clean] *)
Definition clean (cd : cleaned_data) : validation_error + cleaned_data :=
  let total_area := total_area cd in
  let cultivated_area := cultivated_area cd in
  if truthy total_area && truthy cultivated_area then
    if gt cultivated_area total_area then
      inl (ValidationError "cultivated_area"
             "Cultivated area cannot be greater than total area.")
    else inr cd
  else inr cd.

End Forms.

(** ** Requests, responses and the message store *)

Module Http.

(** JSON documents ([JsonResponse]); a [Decimal] is serialised from its
    exact value. *)
#[local] Unset Elimination Schemes.
Inductive json : Type :=
| JNull
| JInt (z : Z)
| JDecimal (d : decimal2)
| JNumber (q : Q)
| JString (s : string)
| JArray (items : list json)
| JObject (members : list (string * json)).
#[local] Set Elimination Schemes.

Definition opt_json {A} (f : A -> json) (o : option A) : json :=
  match o with
  | Some a => f a
  | None => JNull
  end.

(** An f-string or [str(x)]: literal text and formatted fields, each with
    its format specification (empty for [str]); [str.title] follows the
    case tables of Unicode and is kept as the call. *)
Inductive fpart : Type :=
| Lit (s : string)
| FInt (spec : string) (n : Z)
| FDec (spec : string) (d : decimal2)
| FNum (spec : string) (q : Q)
| FTitle (s : string).          (* [s.title()] *)

Definition text : Type := list fpart.

Definition lit (s : string) : text := [Lit s].

(** A column value of [qs.values(...)]. *)
Inductive value : Type :=
| VStr (s : string)
| VInt (n : Z)
| VDec (d : decimal2).

(** [str(v)], as a CSV or spreadsheet cell shows it. *)
Definition value_text (v : value) : text :=
  match v with
  | VStr s => [Lit s]
  | VInt n => [FInt "" n]
  | VDec d => [FDec "" d]
  end.

Definition value_json (v : value) : json :=
  match v with
  | VStr s => JString s
  | VInt n => JInt n
  | VDec d => JDecimal d
  end.

(** ReportLab flowables, as they are put on the story. *)
Inductive style : Type := title_style | heading_style | normal_style.

Inductive flowable : Type :=
| Paragraph (t : text) (s : style)
| Spacer (width height : Z)
| Table (data : list (list text)).

(** A [pandas.DataFrame] built from a list of records: the columns are the
    keys of the records (none when there is no record), the rows their
    values. All records of one query have the same keys. *)
Record DataFrame : Type := {
  columns : list string;
  rows : list (list text)
}.

Definition DataFrame_of_records (records : list (list (string * value)))
  : DataFrame :=
  {| columns := match records with
                | [] => []
                | r :: _ => map fst r
                end;
     rows := map (map (fun kv => value_text (snd kv))) records |}.

(** [pd.DataFrame(dict_of_columns)] *)
Definition DataFrame_of_columns (cols : list (string * list text))
           (n : nat) : DataFrame :=
  {| columns := map fst cols;
     rows := map (fun i => map (fun c => nth i (snd c) []) cols) (seq 0 n) |}.

(** The lines that [df.to_csv(f, index=False)] writes: the header line with
    the column names, then one line per row. *)
Definition to_csv (df : DataFrame) : list (list text) :=
  map lit (columns df) :: rows df.

Inductive message_level : Type := INFO | SUCCESS | WARNING | ERROR.

Record request : Type := {
  user_is_authenticated : bool;
  GET : list (string * string)
}.

(** [request.GET.get(key)]: the last value given for [key]. *)
Definition GET_get (req : request) (key : string) : option string :=
  option_map snd
    (find (fun kv => String.eqb (fst kv) key) (rev (GET req))).

(** [request.GET.get(key, default)] *)
Definition GET_get_default (req : request) (key default : string)
  : string :=
  match GET_get req key with
  | Some v => v
  | None => default
  end.

(** What a request can observe and change: the entity store and the
    messages queued for the user. *)
Record world : Type := {
  db : store;
  messages : list (message_level * text)
}.

(** [messages.error(request, msg)] *)
Definition messages_error (msg : text) (w : world) : world :=
  {| db := db w; messages := messages w ++ [(ERROR, msg)] |}.

End Http.

(** ** Python's [int(str)]

    Decimal literals over ASCII: optional surrounding white space, an
    optional sign, digits with single underscores between them, and at
    most [max_str_digits] digits (the limit of [sys.set_int_max_str_digits],
    which Python releases before 3.11 have in their later patch levels
    only).  Python also reads the decimal digits and the white space of
    other scripts; text with such code points is outside this definition
    ([is_ascii]).  The properties that depend on text not being a number
    ask for ASCII text that is not longer than the limit. *)

Module PyInt.

Definition is_ascii (s : string) : bool :=
  forallb (fun c => (nat_of_ascii c <? 128)%nat) (list_ascii_of_string s).

Definition is_space (c : ascii) : bool :=
  let n := nat_of_ascii c in
  ((9 <=? n) && (n <=? 13) || (n =? 32))%nat.

Definition is_digit (c : ascii) : bool :=
  let n := nat_of_ascii c in
  ((48 <=? n) && (n <=? 57))%nat.

Definition digit_value (c : ascii) : Z := Z.of_nat (nat_of_ascii c) - 48.

Fixpoint lstrip (l : list ascii) : list ascii :=
  match l with
  | c :: rest => if is_space c then lstrip rest else l
  | [] => []
  end.

Definition strip (l : list ascii) : list ascii :=
  rev (lstrip (rev (lstrip l))).

Fixpoint digits (acc : Z) (after_digit : bool) (l : list ascii)
  : option Z :=
  match l with
  | [] => if after_digit then Some acc else None
  | c :: rest =>
      if is_digit c then digits (acc * 10 + digit_value c) true rest
      else if (Ascii.eqb c "_" && after_digit)%bool
           then digits acc false rest
           else None
  end.

Definition max_str_digits : nat := 4300.

Definition int (s : string) : option Z :=
  let l := strip (list_ascii_of_string s) in
  if (max_str_digits <? List.length (filter is_digit l))%nat then None
  else
    match l with
    | "-"%char :: rest => option_map Z.opp (digits 0 false rest)
    | "+"%char :: rest => digits 0 false rest
    | l => digits 0 false l
    end.

End PyInt.

(** ** Python's [repr(str)], on ASCII text

    The text between single quotes, or between double quotes when it holds
    a single quote and no double quote; the quote in use and the backslash
    are escaped, and so are the control characters. *)

Module PyRepr.

Definition double_quote : ascii := ascii_of_nat 34.
Definition backslash : ascii := ascii_of_nat 92.

Definition hex_digit (n : nat) : ascii :=
  nth n (list_ascii_of_string "0123456789abcdef") "0"%char.

Definition char (c : ascii) : string := String c EmptyString.

Definition escape (quote c : ascii) : string :=
  let n := nat_of_ascii c in
  if (Ascii.eqb c quote || Ascii.eqb c backslash)%bool
  then String backslash (char c)
  else if (n =? 9)%nat then String backslash "t"
  else if (n =? 10)%nat then String backslash "n"
  else if (n =? 13)%nat then String backslash "r"
  else if ((n <? 32) || (n =? 127))%nat%bool
  then String backslash
         (String "x" (String (hex_digit (n / 16))
                             (char (hex_digit (n mod 16)))))
  else char c.

Definition quote_of (s : string) : ascii :=
  let l := list_ascii_of_string s in
  if (existsb (Ascii.eqb "'") l
      && negb (existsb (Ascii.eqb double_quote) l))%bool
  then double_quote
  else "'"%char.

Definition repr (s : string) : string :=
  let q := quote_of s in
  (char q
   ++ concat EmptyString (map (escape q) (list_ascii_of_string s))
   ++ char q)%string.

End PyRepr.

(** ** The value of a lookup on an integer key

    [IntegerField.get_prep_value] converts the value with [int] when the
    [filter] call is made, and raises [ValueError] on text that is not a
    number; SQLite takes integers of 64 bits, and binding a larger one
    raises [OverflowError] when the query runs. *)

Module Lookup.

Definition sqlite_integer (n : Z) : bool :=
  (- 2 ^ 63 <=? n) && (n <=? 2 ^ 63 - 1).

Definition id_value (value : string) : exc Z :=
  match PyInt.int value with
  | None =>
      raise (ValueError ("Field 'id' expected a number but got "
                         ++ PyRepr.repr value ++ "."))
  | Some n =>
      if sqlite_integer n then ret n
      else raise (OverflowError
                    "Python int too large to convert to SQLite INTEGER")
  end.

End Lookup.

(** ** views.py: the statistics pages and the JSON API *)

(** What the module reads from its surroundings. *)
Record environment : Type := {
  (** whether [import reportlab] succeeded when the module was loaded *)
  REPORTLAB_AVAILABLE : bool;
  (** [datetime.datetime.now().strftime(fmt)] *)
  now_strftime : string -> string;
  (** the exception that ReportLab raises on a story, when it parses the
      paragraphs or builds the document, if it raises one *)
  doc_build_error : list Http.flowable -> option exception;
  (** whether the configured database raises on a division by zero (as
      PostgreSQL does) or yields [NULL] (as SQLite and MySQL do) *)
  division_by_zero_raises : bool
}.

Module Rows.

Module CropTypeRow.
Record t : Type := {
  crop__crop_type : string;
  total_area : option Z;
  avg_yield : option Q
}.
End CropTypeRow.

Module RegionRow.
Record t : Type := {
  land_holder__region__name : string;
  parcel_count : nat;
  total_area : option Z;
  cultivated_area : option Z
}.
End RegionRow.

Module TopCropRow.
Record t : Type := {
  crop__name : string;
  crop__id : Z;
  total_area : option Z;
  avg_yield : option Q;
  total_revenue : option Z
}.
End TopCropRow.

Module RegionalRow.
Record t : Type := {
  land_parcel__land_holder__region__name : string;
  land_parcel__land_holder__region__id : Z;
  area : option Z;
  yield_amount : option Z;
  revenue : option Z
}.
End RegionalRow.

Module SeasonRow.
Record t : Type := {
  season : string;
  avg_yield : option Q;
  avg_revenue : option Q;
  total_area : option Z
}.
End SeasonRow.

Module YearAreaRow.
Record t : Type := {
  year : Z;
  total_yield : option Z;
  total_revenue : option Z;
  total_area : option Z
}.
End YearAreaRow.

Module HolderRow.
Record t : Type := {
  ownership_type : string;
  count : nat;
  total_land : option Z
}.
End HolderRow.

End Rows.

Module Stats.
Import ORM Queries Rows.

(** SQL [a / b]: [NULL] when an operand is; a zero divisor raises or
    yields [NULL], as the database does.  The quotient is the exact one,
    which the database approximates in floating point. *)
Definition sql_div (env : environment) (a b : option Q) : exc (option Q) :=
  match a, b with
  | Some x, Some y =>
      if Qeq_bool y 0 then
        if division_by_zero_raises env
        then raise (DatabaseError "division by zero")
        else ret None
      else ret (Some (x / y)%Q)
  | _, _ => ret None
  end.

(** SQL [a * n] *)
Definition sql_mul (a : option Q) (n : Q) : option Q :=
  option_map (fun x => (x * n)%Q) a.

(** The members of an [aggregate(...)] call, as they are written: an
    alias and an expression over aggregate functions of named columns. *)
Inductive aggregate_expr : Type :=
| CountOf (name : string)
| SumOf (name : string)
| AvgOf (name : string)
| AggDiv (a b : aggregate_expr)
| AggMul (a : aggregate_expr) (n : Z).

(** The aggregate functions of an expression with the name each is
    applied to, from left to right. *)
Fixpoint aggregate_calls (e : aggregate_expr) : list (string * string) :=
  match e with
  | CountOf name => [("Count", name)]
  | SumOf name => [("Sum", name)]
  | AvgOf name => [("Avg", name)]
  | AggDiv a b => aggregate_calls a ++ aggregate_calls b
  | AggMul a _ => aggregate_calls a
  end.

(** Django resolves the members in the order in which they are written,
    each name against the aliases of the members before it and then
    against the columns of the model: an aggregate function over the alias
    of an earlier member raises [FieldError]. *)
Fixpoint resolve_aggregates (aliases : list string)
         (members : list (string * aggregate_expr)) : exc unit :=
  match members with
  | [] => ret tt
  | (alias, e) :: rest =>
      match find (fun call => existsb (String.eqb (snd call)) aliases)
                 (aggregate_calls e) with
      | Some (function, name) =>
          raise (FieldError ("Cannot compute " ++ function ++ "('" ++ name
                             ++ "'): '" ++ name ++ "' is an aggregate"))
      | None => resolve_aggregates (alias :: aliases) rest
      end
  end.

Record region_stats : Type := {
  total_parcels : nat;
  total_area : option Z;
  avg_parcel_size : option Q;
  cultivated_percentage : option Q
}.

Definition region_stats_members : list (string * aggregate_expr) :=
  [("total_parcels", CountOf "id");
   ("total_area", SumOf "total_area");
   ("avg_parcel_size", AvgOf "total_area");
   ("cultivated_percentage",
    AggMul (AggDiv (AvgOf "cultivated_area") (AvgOf "total_area")) 100)].

(** [qs.aggregate(total_parcels=Count('id'), total_area=Sum('total_area'),
    avg_parcel_size=Avg('total_area'),
    cultivated_percentage=Avg('cultivated_area') / Avg('total_area') * 100)]:
    the members are resolved, then the query runs. *)
Definition aggregate_region_stats (env : environment)
           (qs : list LandParcel.t) : exc region_stats :=
  resolved <- resolve_aggregates [] region_stats_members ;;
  ratio <- sql_div env (Avg LandParcel.cultivated_area qs)
                       (Avg LandParcel.total_area qs) ;;
  ret {| total_parcels := Count qs;
         total_area := Sum LandParcel.total_area qs;
         avg_parcel_size := Avg LandParcel.total_area qs;
         cultivated_percentage := sql_mul ratio 100 |}.

Record crop_stats : Type := {
  cs_total_area : option Z;
  total_yield : option Z;
  avg_yield_per_hectare : option Q;
  total_revenue : option Z;
  avg_revenue_per_hectare : option Q
}.

Definition crop_stats_members : list (string * aggregate_expr) :=
  [("total_area", SumOf "area_allocated");
   ("total_yield", SumOf "yield_amount");
   ("avg_yield_per_hectare",
    AggDiv (AvgOf "yield_amount") (AvgOf "area_allocated"));
   ("total_revenue", SumOf "revenue");
   ("avg_revenue_per_hectare",
    AggDiv (AvgOf "revenue") (AvgOf "area_allocated"))].

(** [qs.aggregate(total_area=Sum('area_allocated'),
    total_yield=Sum('yield_amount'),
    avg_yield_per_hectare=Avg('yield_amount') / Avg('area_allocated'),
    total_revenue=Sum('revenue'),
    avg_revenue_per_hectare=Avg('revenue') / Avg('area_allocated'))] *)
Definition aggregate_crop_stats (env : environment)
           (qs : list CroppingPattern.t) : exc crop_stats :=
  resolved <- resolve_aggregates [] crop_stats_members ;;
  yield_per_hectare <-
    sql_div env (Avg CroppingPattern.yield_amount qs)
                (Avg CroppingPattern.area_allocated qs) ;;
  revenue_per_hectare <-
    sql_div env (Avg CroppingPattern.revenue qs)
                (Avg CroppingPattern.area_allocated qs) ;;
  ret {| cs_total_area := Sum CroppingPattern.area_allocated qs;
         total_yield := Sum CroppingPattern.yield_amount qs;
         avg_yield_per_hectare := yield_per_hectare;
         total_revenue := Sum CroppingPattern.revenue qs;
         avg_revenue_per_hectare := revenue_per_hectare |}.

(** Descending order on optional totals, for [order_by('-total')]. *)
Definition desc (a b : option Z) : bool :=
  match a, b with
  | Some x, Some y => y <=? x
  | Some _, None => true
  | None, Some _ => false
  | None, None => true
  end.

Definition pattern_crop (db : store) (cp : CroppingPattern.t)
  : option (string * Z) :=
  option_map (fun c => (Crop.name c, Crop.id c))
    (get_crop db (CroppingPattern.crop_id cp)).

Definition name_id_eqb (a b : string * Z) : bool :=
  String.eqb (fst a) (fst b) && (snd a =? snd b).

(** [qs.values('crop__name', 'crop__id').annotate(
    total_area=Sum('area_allocated'), avg_yield=Avg('yield_amount'),
    total_revenue=Sum('revenue')).order_by('-total_area')[:10]] *)
Definition top_crops (db : store) (qs : list CroppingPattern.t)
  : list TopCropRow.t :=
  limit 10
    (order_by (fun a b => desc (TopCropRow.total_area a)
                               (TopCropRow.total_area b))
       (map (fun kg =>
               let g := map snd (snd kg) in
               {| TopCropRow.crop__name := fst (fst kg);
                  TopCropRow.crop__id := snd (fst kg);
                  TopCropRow.total_area :=
                    Sum CroppingPattern.area_allocated g;
                  TopCropRow.avg_yield :=
                    Avg CroppingPattern.yield_amount g;
                  TopCropRow.total_revenue :=
                    Sum CroppingPattern.revenue g |})
            (group_by name_id_eqb fst (keyed (pattern_crop db) qs)))).

Definition pattern_crop_type (db : store) (cp : CroppingPattern.t)
  : option string :=
  option_map Crop.crop_type (get_crop db (CroppingPattern.crop_id cp)).

(** [qs.values('crop__crop_type').annotate(
    total_area=Sum('area_allocated'), avg_yield=Avg('yield_amount'))] *)
Definition crop_distribution (db : store) (qs : list CroppingPattern.t)
  : list CropTypeRow.t :=
  map (fun kg =>
         let g := map snd (snd kg) in
         {| CropTypeRow.crop__crop_type := fst kg;
            CropTypeRow.total_area := Sum CroppingPattern.area_allocated g;
            CropTypeRow.avg_yield := Avg CroppingPattern.yield_amount g |})
      (group_by String.eqb fst (keyed (pattern_crop_type db) qs)).

Definition parcel_region_name (db : store) (p : LandParcel.t)
  : option string :=
  option_map Region.name (parcel_region db p).

(** [LandParcel.objects.values('land_holder__region__name').annotate(
    parcel_count=Count('id'), total_area=Sum('total_area'),
    cultivated_area=Sum('cultivated_area'))] *)
Definition region_rows (db : store) (qs : list LandParcel.t)
  : list RegionRow.t :=
  map (fun kg =>
         let g := map snd (snd kg) in
         {| RegionRow.land_holder__region__name := fst kg;
            RegionRow.parcel_count := Count g;
            RegionRow.total_area := Sum LandParcel.total_area g;
            RegionRow.cultivated_area := Sum LandParcel.cultivated_area g |})
      (group_by String.eqb fst (keyed (parcel_region_name db) qs)).

Definition pattern_region (db : store) (cp : CroppingPattern.t)
  : option (string * Z) :=
  match get_land_parcel db (CroppingPattern.land_parcel_id cp) with
  | Some p => option_map (fun r => (Region.name r, Region.id r))
                (parcel_region db p)
  | None => None
  end.

(** [qs.values('land_parcel__land_holder__region__name',
    'land_parcel__land_holder__region__id').annotate(
    area=Sum('area_allocated'), yield_amount=Sum('yield_amount'),
    revenue=Sum('revenue')).order_by('-area')] *)
Definition regional_distribution (db : store) (qs : list CroppingPattern.t)
  : list RegionalRow.t :=
  order_by (fun a b => desc (RegionalRow.area a) (RegionalRow.area b))
    (map (fun kg =>
            let g := map snd (snd kg) in
            {| RegionalRow.land_parcel__land_holder__region__name :=
                 fst (fst kg);
               RegionalRow.land_parcel__land_holder__region__id :=
                 snd (fst kg);
               RegionalRow.area := Sum CroppingPattern.area_allocated g;
               RegionalRow.yield_amount :=
                 Sum CroppingPattern.yield_amount g;
               RegionalRow.revenue := Sum CroppingPattern.revenue g |})
         (group_by name_id_eqb fst (keyed (pattern_region db) qs))).

(** [qs.values('season').annotate(avg_yield=Avg('yield_amount'),
    avg_revenue=Avg('revenue'), total_area=Sum('area_allocated'))] *)
Definition seasonal_performance (qs : list CroppingPattern.t)
  : list SeasonRow.t :=
  map (fun kg =>
         {| SeasonRow.season := fst kg;
            SeasonRow.avg_yield :=
              Avg CroppingPattern.yield_amount (snd kg);
            SeasonRow.avg_revenue := Avg CroppingPattern.revenue (snd kg);
            SeasonRow.total_area :=
              Sum CroppingPattern.area_allocated (snd kg) |})
      (group_by String.eqb CroppingPattern.season qs).

(** [qs.values('year').annotate(total_yield=Sum('yield_amount'),
    total_revenue=Sum('revenue'), total_area=Sum('area_allocated'))
    .order_by('year')] *)
Definition yearly_trend (qs : list CroppingPattern.t)
  : list YearAreaRow.t :=
  order_by (fun a b => YearAreaRow.year a <=? YearAreaRow.year b)
    (map (fun kg =>
            {| YearAreaRow.year := fst kg;
               YearAreaRow.total_yield :=
                 Sum CroppingPattern.yield_amount (snd kg);
               YearAreaRow.total_revenue :=
                 Sum CroppingPattern.revenue (snd kg);
               YearAreaRow.total_area :=
                 Sum CroppingPattern.area_allocated (snd kg) |})
         (group_by Z.eqb CroppingPattern.year qs)).

(** The rows of [LandHolder] left-joined with its parcels: a holder
    without parcels gives one row without a parcel. *)
Definition holders_with_parcels (db : store)
  : list (LandHolder.t * option LandParcel.t) :=
  flat_map
    (fun h =>
       match filter (fun p => LandParcel.land_holder_id p
                              =? LandHolder.id h) (land_parcels db) with
       | [] => [(h, None)]
       | ps => map (fun p => (h, Some p)) ps
       end) (land_holders db).

(** [Sum] over a nullable column: the [NULL]s are skipped. *)
Definition SumNullable {A} (field : A -> option Z) (rows : list A)
  : option Z :=
  Sum (fun z => z) (flat_map (fun x => match field x with
                                       | Some z => [z]
                                       | None => []
                                       end) rows).

(** [LandHolder.objects.values('ownership_type').annotate(
    count=Count('id'), total_land=Sum('parcels__total_area'))] *)
Definition land_holding_analysis (db : store) : list HolderRow.t :=
  map (fun kg =>
         {| HolderRow.ownership_type := fst kg;
            HolderRow.count := Count (snd kg);
            HolderRow.total_land :=
              SumNullable (fun hp => option_map LandParcel.total_area
                                       (snd hp)) (snd kg) |})
      (group_by String.eqb
         (fun hp => LandHolder.ownership_type (fst hp))
         (holders_with_parcels db)).

End Stats.

Module Views.
Import Http ORM Queries Rows Stats.

(** Template contexts of the pages that are modelled. [region_stats] and
    [crop_stats] are [None] for the empty dictionary of the handlers. *)
Inductive context : Type :=
| RegionAnalysisContext
    (region : Region.t)
    (region_stats : option Stats.region_stats)
    (top_crops : list TopCropRow.t)
    (soil_distribution : list SoilRow.t)
    (irrigation_systems : list IrrigationRow.t)
| CropAnalysisContext
    (crop : Crop.t)
    (crop_stats : option Stats.crop_stats)
    (regional_distribution : list RegionalRow.t)
    (seasonal_performance : list SeasonRow.t)
    (yearly_trend : list YearAreaRow.t)
| NoContext.

Inductive content : Type :=
| Json (j : json)
| Csv (lines : list (list text))
| Excel (df : DataFrame)
| Pdf (story : list flowable)
| Template (name : string) (ctx : context).

(** A response: status, content type, the file name of an
    [attachment; filename=...] disposition if there is one, and the
    content; or a redirect to a named URL; or the page with status 404
    with which Django itself answers an [Http404] that leaves a view. *)
Inductive response : Type :=
| HttpResponse (status : Z) (content_type : string)
    (attachment : option string) (body : content)
| Redirect (url_name : string) (pk : option Z)
| RedirectToLogin
| HttpResponseNotFound.

Definition JsonResponse (j : json) (status : Z) : response :=
  HttpResponse status "application/json" None (Json j).

Definition render (template : string) (ctx : context) (status : Z)
  : response :=
  HttpResponse status "text/html" None (Template template ctx).

Definition view : Type := request -> world -> response * world.

(** [@login_required] *)
Definition login_required (v : view) : view :=
  fun req w =>
    if user_is_authenticated req then v req w else (RedirectToLogin, w).

(** [handler404].  [land_analysis/urls.py] assigns it to its own
    [handler404]; Django reads that name from the root URLconf only, which
    does not set it, so no request is answered by this function. *)
Definition handler404 : response :=
  render "land_analysis/404.html" NoContext 404.

(** Truth value of a string: the empty string is falsy. *)
Definition truthy_str (s : string) : bool := negb (String.eqb s "").

(** *** api_land_stats *)

Record land_stats : Type := {
  soil_distribution : list SoilRow.t;
  irrigation_distribution : list IrrigationRow.t;
  crop_distribution : list CropTypeRow.t;
  region_stats : list RegionRow.t
}.

Record querysets : Type := {
  qs_land_parcels : list LandParcel.t;
  qs_irrigation_systems : list IrrigationSystem.t;
  qs_cropping_patterns : list CroppingPattern.t
}.

(** The three [filter] calls on [land_holder__region_id]; the lookup value
    is a key ([Lookup.id_value]): text that is not a number, or a number
    that the database cannot take, raises within the [try]. *)
Definition filter_region (db : store) (region_id : string) (q : querysets)
  : exc querysets :=
  rid <- Lookup.id_value region_id ;;
  ret {| qs_land_parcels := parcels_in_region db rid (qs_land_parcels q);
         qs_irrigation_systems :=
           filter (fun i => opt_eqb
                      (via_parcel_region_id db
                         (IrrigationSystem.land_parcel_id i)) rid)
                  (qs_irrigation_systems q);
         qs_cropping_patterns :=
           filter (fun c => opt_eqb
                      (via_parcel_region_id db
                         (CroppingPattern.land_parcel_id c)) rid)
                  (qs_cropping_patterns q) |}.

(** The three [filter] calls on the soil type. *)
Definition filter_soil (db : store) (soil_type : string) (q : querysets)
  : querysets :=
  {| qs_land_parcels := parcels_of_soil soil_type (qs_land_parcels q);
     qs_irrigation_systems :=
       filter (fun i => opt_str_eqb
                  (via_parcel_soil db (IrrigationSystem.land_parcel_id i))
                  soil_type)
              (qs_irrigation_systems q);
     qs_cropping_patterns :=
       filter (fun c => opt_str_eqb
                  (via_parcel_soil db (CroppingPattern.land_parcel_id c))
                  soil_type)
              (qs_cropping_patterns q) |}.

(** The filtered query sets of [api_land_stats]: a parameter that is
    absent or empty filters nothing. *)
Definition apply_filters (db : store) (req : request) : exc querysets :=
  let region_id := GET_get req "region" in
  let soil_type := GET_get req "soil_type" in
  let q := {| qs_land_parcels := land_parcels db;
              qs_irrigation_systems := irrigation_systems db;
              qs_cropping_patterns := cropping_patterns db |} in
  q <- match region_id with
       | Some r => if truthy_str r then filter_region db r q else ret q
       | None => ret q
       end ;;
  ret match soil_type with
      | Some s => if truthy_str s then filter_soil db s q else q
      | None => q
      end.

(** The body of the [try] of [api_land_stats], up to the response. *)
Definition api_land_stats_try (db : store) (req : request)
  : exc land_stats :=
  q <- apply_filters db req ;;
  ret {| soil_distribution := Queries.soil_distribution (qs_land_parcels q);
         irrigation_distribution :=
           Queries.irrigation_distribution (qs_irrigation_systems q);
         crop_distribution :=
           Stats.crop_distribution db (qs_cropping_patterns q);
         region_stats := region_rows db (land_parcels db) |}.

Definition soil_row_json (r : SoilRow.t) : json :=
  JObject [("soil_type", JString (SoilRow.soil_type r));
           ("count", JInt (Z.of_nat (SoilRow.count r)));
           ("total_area", opt_json JDecimal (SoilRow.total_area r))].

Definition irrigation_row_json (r : IrrigationRow.t) : json :=
  JObject [("system_type", JString (IrrigationRow.system_type r));
           ("count", JInt (Z.of_nat (IrrigationRow.count r)));
           ("avg_efficiency",
            opt_json JNumber (IrrigationRow.avg_efficiency r))].

Definition crop_type_row_json (r : CropTypeRow.t) : json :=
  JObject [("crop__crop_type", JString (CropTypeRow.crop__crop_type r));
           ("total_area", opt_json JDecimal (CropTypeRow.total_area r));
           ("avg_yield", opt_json JNumber (CropTypeRow.avg_yield r))].

Definition region_row_json (r : RegionRow.t) : json :=
  JObject [("land_holder__region__name",
            JString (RegionRow.land_holder__region__name r));
           ("parcel_count", JInt (Z.of_nat (RegionRow.parcel_count r)));
           ("total_area", opt_json JDecimal (RegionRow.total_area r));
           ("cultivated_area",
            opt_json JDecimal (RegionRow.cultivated_area r))].

Definition land_stats_json (s : land_stats) : json :=
  JObject [("soil_distribution",
            JArray (map soil_row_json (soil_distribution s)));
           ("irrigation_distribution",
            JArray (map irrigation_row_json (irrigation_distribution s)));
           ("crop_distribution",
            JArray (map crop_type_row_json (crop_distribution s)));
           ("region_stats", JArray (map region_row_json (region_stats s)));
           ("status", JString "success")].

Definition api_land_stats_view : view :=
  fun req w =>
    match api_land_stats_try (db w) req with
    | inr s => (JsonResponse (land_stats_json s) 200, w)
    | inl e =>
        (JsonResponse (JObject [("status", JString "error");
                                ("message", JString (str_exception e))])
                      500, w)
    end.

Definition api_land_stats : view := login_required api_land_stats_view.

(** *** region_analysis *)

Record region_analysis_data : Type := {
  ra_region_stats : Stats.region_stats;
  ra_top_crops : list TopCropRow.t;
  ra_soil_distribution : list SoilRow.t;
  ra_irrigation_systems : list IrrigationRow.t
}.

(** The body of the [try] of [region_analysis]. *)
Definition region_analysis_try (env : environment) (db : store)
           (region : Region.t) : exc region_analysis_data :=
  let rid := Region.id region in
  region_stats <-
    aggregate_region_stats env (parcels_in_region db rid (land_parcels db)) ;;
  ret {| ra_region_stats := region_stats;
         ra_top_crops :=
           top_crops db
             (filter (fun c => opt_eqb
                        (via_parcel_region_id db
                           (CroppingPattern.land_parcel_id c)) rid)
                     (cropping_patterns db));
         ra_soil_distribution :=
           Queries.soil_distribution
             (parcels_in_region db rid (land_parcels db));
         ra_irrigation_systems :=
           Queries.irrigation_distribution
             (filter (fun i => opt_eqb
                        (via_parcel_region_id db
                           (IrrigationSystem.land_parcel_id i)) rid)
                     (irrigation_systems db)) |}.

Definition region_analysis_view (env : environment) (region_id : Z)
  : view :=
  fun req w =>
    match get_region (db w) region_id with
    | None => (HttpResponseNotFound, w)
    | Some region =>
        let ctx :=
          match region_analysis_try env (db w) region with
          | inr d =>
              RegionAnalysisContext region (Some (ra_region_stats d))
                (ra_top_crops d) (ra_soil_distribution d)
                (ra_irrigation_systems d)
          | inl _ => RegionAnalysisContext region None [] [] []
          end in
        (render "land_analysis/region_analysis.html" ctx 200, w)
    end.

Definition region_analysis (env : environment) (region_id : Z) : view :=
  login_required (region_analysis_view env region_id).

(** *** crop_analysis *)

Record crop_analysis_data : Type := {
  ca_crop_stats : Stats.crop_stats;
  ca_regional_distribution : list RegionalRow.t;
  ca_seasonal_performance : list SeasonRow.t;
  ca_yearly_trend : list YearAreaRow.t
}.

(** [CroppingPattern.objects.filter(crop=crop)] *)
Definition patterns_of_crop (db : store) (crop : Crop.t)
  : list CroppingPattern.t :=
  filter (fun c => CroppingPattern.crop_id c =? Crop.id crop)
         (cropping_patterns db).

(** The body of the [try] of [crop_analysis]. *)
Definition crop_analysis_try (env : environment) (db : store)
           (crop : Crop.t) : exc crop_analysis_data :=
  let qs := patterns_of_crop db crop in
  crop_stats <- aggregate_crop_stats env qs ;;
  ret {| ca_crop_stats := crop_stats;
         ca_regional_distribution := Stats.regional_distribution db qs;
         ca_seasonal_performance := Stats.seasonal_performance qs;
         ca_yearly_trend := Stats.yearly_trend qs |}.

Definition crop_analysis_view (env : environment) (crop_id : Z) : view :=
  fun req w =>
    match get_crop (db w) crop_id with
    | None => (HttpResponseNotFound, w)
    | Some crop =>
        let ctx :=
          match crop_analysis_try env (db w) crop with
          | inr d =>
              CropAnalysisContext crop (Some (ca_crop_stats d))
                (ca_regional_distribution d) (ca_seasonal_performance d)
                (ca_yearly_trend d)
          | inl _ => CropAnalysisContext crop None [] [] []
          end in
        (render "land_analysis/crop_analysis.html" ctx 200, w)
    end.

Definition crop_analysis (env : environment) (crop_id : Z) : view :=
  login_required (crop_analysis_view env crop_id).

(** *** export_data *)

(** [LandParcel.objects.all().values('parcel_id', 'total_area',
    'cultivated_area', 'soil_type', 'land_holder__name',
    'land_holder__region__name')] *)
Definition land_parcel_records (db : store)
  : list (list (string * value)) :=
  flat_map
    (fun p =>
       match get_land_holder db (LandParcel.land_holder_id p) with
       | Some h =>
           match get_region db (LandHolder.region_id h) with
           | Some r =>
               [[("parcel_id", VStr (LandParcel.parcel_id p));
                 ("total_area", VDec (LandParcel.total_area p));
                 ("cultivated_area", VDec (LandParcel.cultivated_area p));
                 ("soil_type", VStr (LandParcel.soil_type p));
                 ("land_holder__name", VStr (LandHolder.name h));
                 ("land_holder__region__name", VStr (Region.name r))]]
           | None => []
           end
       | None => []
       end) (land_parcels db).

(** [CroppingPattern.objects.all().values('crop__name', 'year', 'season',
    'area_allocated', 'yield_amount', 'revenue',
    'land_parcel__parcel_id')] *)
Definition cropping_pattern_records (db : store)
  : list (list (string * value)) :=
  flat_map
    (fun c =>
       match get_crop db (CroppingPattern.crop_id c),
             get_land_parcel db (CroppingPattern.land_parcel_id c) with
       | Some crop, Some p =>
           [[("crop__name", VStr (Crop.name crop));
             ("year", VInt (CroppingPattern.year c));
             ("season", VStr (CroppingPattern.season c));
             ("area_allocated", VDec (CroppingPattern.area_allocated c));
             ("yield_amount", VDec (CroppingPattern.yield_amount c));
             ("revenue", VDec (CroppingPattern.revenue c));
             ("land_parcel__parcel_id", VStr (LandParcel.parcel_id p))]]
       | _, _ => []
       end) (cropping_patterns db).

(** [IrrigationSystem.objects.all().values('system_type',
    'efficiency_rating', 'annual_water_usage',
    'land_parcel__parcel_id')] *)
Definition irrigation_system_records (db : store)
  : list (list (string * value)) :=
  flat_map
    (fun i =>
       match get_land_parcel db (IrrigationSystem.land_parcel_id i) with
       | Some p =>
           [[("system_type", VStr (IrrigationSystem.system_type i));
             ("efficiency_rating",
              VInt (IrrigationSystem.efficiency_rating i));
             ("annual_water_usage",
              VDec (IrrigationSystem.annual_water_usage i));
             ("land_parcel__parcel_id", VStr (LandParcel.parcel_id p))]]
       | None => []
       end) (irrigation_systems db).

Definition holder_row_json (r : HolderRow.t) : json :=
  JObject [("ownership_type", JString (HolderRow.ownership_type r));
           ("count", JInt (Z.of_nat (HolderRow.count r)));
           ("total_land", opt_json JDecimal (HolderRow.total_land r))].

Definition crop_row_json (r : CropRow.t) : json :=
  JObject [("crop__name", JString (CropRow.crop__name r));
           ("total_area", opt_json JDecimal (CropRow.total_area r));
           ("total_yield", opt_json JDecimal (CropRow.total_yield r));
           ("total_revenue", opt_json JDecimal (CropRow.total_revenue r))].

(** [generate_comprehensive_report]: the data of the report as JSON. *)
Definition generate_comprehensive_report (db : store) : response :=
  HttpResponse 200 "application/json"
    (Some "comprehensive_agricultural_report.json")
    (Json
       (JObject
          [("summary",
            JObject
              [("total_land_holders",
                JInt (Z.of_nat (Count (land_holders db))));
               ("total_parcels",
                JInt (Z.of_nat (Count (land_parcels db))));
               ("total_cultivated_area",
                JDecimal (or_0 (Sum LandParcel.cultivated_area
                                    (land_parcels db))));
               ("total_revenue",
                JDecimal (or_0 (Sum CroppingPattern.revenue
                                    (cropping_patterns db))))]);
           ("land_analysis",
            JArray (map holder_row_json (land_holding_analysis db)));
           ("crop_analysis",
            JArray (map crop_row_json
                      (crop_totals db (cropping_patterns db))));
           ("irrigation_analysis",
            JArray (map irrigation_row_json
                      (Queries.irrigation_distribution
                         (irrigation_systems db))))])).

(** The second half of [export_data]: the records in the format that the
    request asks for. *)
Definition export_records (data : list (list (string * value)))
           (filename : string) (req : request) : response :=
  let df := DataFrame_of_records data in
  let format_type := GET_get_default req "format" "json" in
  if String.eqb format_type "csv" then
    HttpResponse 200 "text/csv" (Some (filename ++ ".csv")%string)
      (Csv (to_csv df))
  else if String.eqb format_type "excel" then
    HttpResponse 200 "application/vnd.ms-excel" (Some (filename ++ ".xlsx")%string)
      (Excel df)
  else
    HttpResponse 200 "application/json" (Some (filename ++ ".json")%string)
      (Json (JArray (map (fun r =>
                            JObject (map (fun kv =>
                                            (fst kv, value_json (snd kv)))
                                         r)) data))).

Definition export_data_view (data_type : string) : view :=
  fun req w =>
    if String.eqb data_type "land_parcels" then
      (export_records (land_parcel_records (db w)) "land_parcels" req, w)
    else if String.eqb data_type "cropping_patterns" then
      (export_records (cropping_pattern_records (db w))
         "cropping_patterns" req, w)
    else if String.eqb data_type "irrigation_systems" then
      (export_records (irrigation_system_records (db w))
         "irrigation_systems" req, w)
    else if String.eqb data_type "comprehensive_report" then
      (generate_comprehensive_report (db w), w)
    else
      (JsonResponse (JObject [("error", JString "Invalid data type")]) 400,
       w).

Definition export_data (data_type : string) : view :=
  login_required (export_data_view data_type).

(** *** The document reports *)

(** [item or 0] on an optional rational. *)
Definition or_0Q (x : option Q) : Q :=
  match x with
  | Some q => if Qeq_bool q 0 then 0%Q else q
  | None => 0%Q
  end.

(** The [try] bodies of the section writers below run queries and build
    flowables only; nothing in them raises in this embedding, so each is
    the function from the story to the extended story. *)

Definition _generate_summary_report (db : store) (story : list flowable)
  : list flowable :=
  let total_land_holders := Count (land_holders db) in
  let total_parcels := Count (land_parcels db) in
  let total_cultivated_area :=
    or_0 (Sum LandParcel.cultivated_area (land_parcels db)) in
  let total_revenue :=
    or_0 (Sum CroppingPattern.revenue (cropping_patterns db)) in
  story ++
  [Paragraph (lit "Executive Summary") heading_style;
   Table [[lit "Metric"; lit "Value"];
          [lit "Total Land Holders";
           [FInt "," (Z.of_nat total_land_holders)]];
          [lit "Total Land Parcels"; [FInt "," (Z.of_nat total_parcels)]];
          [lit "Total Cultivated Area";
           [FDec ",.2f" total_cultivated_area; Lit " hectares"]];
          [lit "Total Revenue Generated";
           [Lit "₹"; FDec ",.2f" total_revenue]]];
   Spacer 1 20].

Definition _generate_land_analysis_report (db : store)
           (story : list flowable) : list flowable :=
  let story := story ++ [Paragraph (lit "Land Holding Analysis")
                           heading_style] in
  let land_analysis := land_holding_analysis db in
  let story :=
    match land_analysis with
    | [] => story ++ [Paragraph (lit "No land holding data available.")
                        normal_style]
    | _ =>
        story ++
        [Table ([lit "Ownership Type"; lit "Count";
                 lit "Total Land Area (hectares)"]
                :: map (fun item =>
                          [lit (HolderRow.ownership_type item);
                           [FInt "" (Z.of_nat (HolderRow.count item))];
                           [FDec ",.2f" (or_0 (HolderRow.total_land item))]])
                       land_analysis)]
    end in
  story ++ [Spacer 1 20].

Definition or_Unknown (s : string) : string :=
  if String.eqb s "" then "Unknown" else s.

Definition _generate_crop_analysis_report (db : store)
           (story : list flowable) : list flowable :=
  let story := story ++ [Paragraph (lit "Crop Productivity Analysis")
                           heading_style] in
  let crop_analysis :=
    limit 10
      (order_by (fun a b => desc (CropRow.total_revenue a)
                                 (CropRow.total_revenue b))
         (crop_totals db (cropping_patterns db))) in
  let story :=
    match crop_analysis with
    | [] => story ++ [Paragraph (lit "No crop data available.")
                        normal_style]
    | _ =>
        story ++
        [Table ([lit "Crop Name"; lit "Area (hectares)"; lit "Total Yield";
                 lit "Revenue (₹)"]
                :: map (fun item =>
                          [lit (or_Unknown (CropRow.crop__name item));
                           [FDec ",.2f" (or_0 (CropRow.total_area item))];
                           [FDec ",.2f" (or_0 (CropRow.total_yield item))];
                           [Lit "₹";
                            FDec ",.2f" (or_0 (CropRow.total_revenue item))]])
                       crop_analysis)]
    end in
  story ++ [Spacer 1 20].

Definition _generate_irrigation_analysis_report (db : store)
           (story : list flowable) : list flowable :=
  let story := story ++ [Paragraph (lit "Irrigation System Analysis")
                           heading_style] in
  let irrigation_analysis :=
    Queries.irrigation_distribution (irrigation_systems db) in
  let story :=
    match irrigation_analysis with
    | [] => story ++ [Paragraph (lit "No irrigation data available.")
                        normal_style]
    | _ =>
        story ++
        [Table ([lit "System Type"; lit "Count"; lit "Avg Efficiency";
                 lit "Avg Water Usage"]
                :: map (fun item =>
                          [lit (IrrigationRow.system_type item);
                           [FInt "" (Z.of_nat (IrrigationRow.count item))];
                           [FNum ".1f"
                              (or_0Q (IrrigationRow.avg_efficiency item));
                            Lit "%"];
                           [FNum ",.0f"
                              (or_0Q (IrrigationRow.avg_water_usage item));
                            Lit " liters"]])
                       irrigation_analysis)]
    end in
  story ++ [Spacer 1 20].

Definition recommendations : list string :=
  ["• Consider expanding high-revenue crop cultivation";
   "• Optimize irrigation systems for better water efficiency";
   "• Implement soil health improvement programs";
   "• Explore diversification of crop patterns";
   "• Invest in modern agricultural technologies"].

Definition _generate_comprehensive_report (db : store)
           (story : list flowable) : list flowable :=
  let story := _generate_summary_report db story in
  let story := _generate_land_analysis_report db story in
  let story := _generate_crop_analysis_report db story in
  let story := _generate_irrigation_analysis_report db story in
  let story := story ++ [Paragraph (lit "Recommendations") heading_style] in
  story ++ map (fun rec => Paragraph (lit rec) normal_style) recommendations.

(** The title and the date that open every report. *)
Definition report_heading (env : environment) (report_type : string)
  : list flowable :=
  [Paragraph [Lit "Agricultural Analysis Report - "; FTitle report_type]
             title_style;
   Spacer 1 20;
   Paragraph (lit ("Generated on: " ++ now_strftime env "%B %d, %Y"))
             normal_style;
   Spacer 1 30].

(** The content that [download_analysis_report] adds for a report type. *)
Definition report_content (db : store) (report_type : string)
           (story : list flowable) : list flowable :=
  if String.eqb report_type "summary" then
    _generate_summary_report db story
  else if String.eqb report_type "land_analysis" then
    _generate_land_analysis_report db story
  else if String.eqb report_type "crop_analysis" then
    _generate_crop_analysis_report db story
  else if String.eqb report_type "irrigation_analysis" then
    _generate_irrigation_analysis_report db story
  else if String.eqb report_type "comprehensive" then
    _generate_comprehensive_report db story
  else
    story ++ [Paragraph (lit "Invalid report type selected.") normal_style].

(** [doc.build(story)] and the response that carries the document. *)
Definition build_pdf (env : environment) (story : list flowable)
           (filename : string) : exc response :=
  match doc_build_error env story with
  | Some e => raise e
  | None => ret (HttpResponse 200 "application/pdf" (Some filename)
                   (Pdf story))
  end.

(** The body of the [try] of [download_analysis_report]. *)
Definition download_analysis_report_try (env : environment) (db : store)
           (report_type : string) : exc response :=
  let story := report_heading env report_type in
  let story := report_content db report_type story in
  build_pdf env story
    ("agriculture_report_" ++ report_type ++ "_"
     ++ now_strftime env "%Y%m%d" ++ ".pdf")%string.

Definition download_analysis_report_view (env : environment)
           (report_type : string) : view :=
  fun req w =>
    if negb (REPORTLAB_AVAILABLE env) then
      (Redirect "analysis_reports" None,
       messages_error
         (lit "PDF generation is not available. Please install ReportLab.")
         w)
    else
      match download_analysis_report_try env (db w) report_type with
      | inr response => (response, w)
      | inl e =>
          (Redirect "analysis_reports" None,
           messages_error [Lit "Error generating report: ";
                           Lit (str_exception e)] w)
      end.

Definition download_analysis_report (env : environment)
           (report_type : string) : view :=
  login_required (download_analysis_report_view env report_type).

(** [get_object_or_404(LandParcel, pk=pk)] *)
Definition get_parcel_or_404 (db : store) (pk : Z) : exc LandParcel.t :=
  match get_land_parcel db pk with
  | Some p => ret p
  | None => raise (Http404 "No LandParcel matches the given query.")
  end.

(** [parcel.land_holder] *)
Definition parcel_land_holder (db : store) (p : LandParcel.t)
  : exc LandHolder.t :=
  match get_land_holder db (LandParcel.land_holder_id p) with
  | Some h => ret h
  | None => raise (DoesNotExist "LandHolder matching query does not exist.")
  end.

(** [holder.region] *)
Definition holder_region (db : store) (h : LandHolder.t) : exc Region.t :=
  match get_region db (LandHolder.region_id h) with
  | Some r => ret r
  | None => raise (DoesNotExist "Region matching query does not exist.")
  end.

(** The six values that both forms of the parcel report show. *)
Definition parcel_values (db : store) (parcel : LandParcel.t)
  : exc (list text) :=
  h <- parcel_land_holder db parcel ;;
  r <- holder_region db h ;;
  ret [lit (LandParcel.parcel_id parcel);
       [FDec "" (LandParcel.total_area parcel); Lit " hectares"];
       [FDec "" (LandParcel.cultivated_area parcel); Lit " hectares"];
       lit (LandParcel.get_soil_type_display parcel);
       lit (LandHolder.name h);
       lit (Region.name r)].

Definition parcel_fields : list text :=
  [lit "Parcel ID"; lit "Total Area"; lit "Cultivated Area";
   lit "Soil Type"; lit "Land Holder"; lit "Region"].

(** The body of the [try] of [download_parcel_report]. *)
Definition download_parcel_report_try (env : environment) (db : store)
           (pk : Z) : exc response :=
  parcel <- get_parcel_or_404 db pk ;;
  values <- parcel_values db parcel ;;
  if negb (REPORTLAB_AVAILABLE env) then
    let df := DataFrame_of_columns
                [("Field", parcel_fields); ("Value", values)] 6 in
    ret (HttpResponse 200 "text/csv"
           (Some ("parcel_" ++ LandParcel.parcel_id parcel
                  ++ "_report.csv")%string)
           (Csv (to_csv df)))
  else
    let story :=
      [Paragraph (lit ("Land Parcel Report - "
                       ++ LandParcel.parcel_id parcel)) title_style;
       Spacer 1 20;
       Table (map (fun fv => [fst fv; snd fv])
                  (combine parcel_fields values))] in
    build_pdf env story
      ("parcel_" ++ LandParcel.parcel_id parcel ++ "_report.pdf")%string.

Definition download_parcel_report_view (env : environment) (pk : Z)
  : view :=
  fun req w =>
    match download_parcel_report_try env (db w) pk with
    | inr response => (response, w)
    | inl e =>
        (Redirect "land_parcel_detail" (Some pk),
         messages_error [Lit "Error generating parcel report: ";
                         Lit (str_exception e)] w)
    end.

Definition download_parcel_report (env : environment) (pk : Z) : view :=
  login_required (download_parcel_report_view env pk).

End Views.

(** ** forms.py: the year of a cropping pattern *)

Module CroppingPatternForm.

(** [CroppingPatternForm.clean_year]: [year] is the cleaned integer, or
    [None] when the field was left empty. *)
Definition clean_year (year : option Z)
  : Forms.validation_error + option Z :=
  match year with
  | Some y =>
      if negb (y =? 0) && ((y <? 2000) || (2030 <? y)) then
        inl (Forms.ValidationError "year"
               "Year must be between 2000 and 2030.")
      else inr year
  | None => inr year
  end.

End CroppingPatternForm.

(** ** views.py: the pages *)

Module LandAnalysis.
(** [analysis_date] is the ordinal of the day. *)
Record t : Type := {
  id : Z;
  land_parcel_id : Z;
  analysis_date : Z;
  soil_health_index : Z;
  water_availability : Z;
  productivity_score : Z;
  recommendations : string
}.
End LandAnalysis.

Module HomeContext.
Record t : Type := {
  total_land_holders : nat;
  total_parcels : nat;
  total_cultivated_area : Z;
  recent_parcels : list LandParcel.t;
  regions : list Region.t;
  soil_types : list (string * string);
  crops : list Crop.t;
  years : list Z
}.
End HomeContext.

Module ParcelListContext.
Record t : Type := {
  parcels : list LandParcel.t;
  regions : list Region.t;
  soil_types : list (string * string);
  total_area : Z;
  cultivated_area : Z;
  unique_crops : nat
}.
End ParcelListContext.

Module ParcelDetailContext.
(** [cultivation_percentage] is the value that is handed to
    [round(..., 1)]. *)
Record t : Type := {
  parcel : LandParcel.t;
  cropping_history : list CroppingPattern.t;
  analyses : list LandAnalysis.t;
  cultivation_percentage : Q
}.
End ParcelDetailContext.

Module RegionDataRow.
Record t : Type := {
  land_holder__region__name : string;
  land_holder__region__id : Z;
  total_area : option Z;
  parcel_count : nat
}.
End RegionDataRow.

Module DashboardContext.
Record stats : Type := {
  total_land_holders : nat;
  total_parcels : nat;
  total_cultivated_area : Z;
  avg_productivity : Q
}.

Record t : Type := {
  dashboard_stats : stats;
  region_data : list RegionDataRow.t;
  irrigation_data : list IrrigationRow.t;
  crop_data : list Rows.TopCropRow.t;
  charts : list (string * Utils.chart);
  regions : list Region.t;
  soil_types : list (string * string);
  crops : list Crop.t;
  years : list Z
}.
End DashboardContext.

Module HoldingRow.
Record t : Type := {
  ownership_type : string;
  count : nat;
  total_land : option Z;
  avg_parcels : option Q
}.
End HoldingRow.

Module EfficiencyRow.
Record t : Type := {
  system_type : string;
  avg_efficiency : option Q;
  avg_water_usage : option Q
}.
End EfficiencyRow.

Module ProductivityRow.
Record t : Type := {
  crop__name : string;
  crop__crop_type : string;
  crop__id : Z;
  total_area : option Z;
  avg_yield : option Q;
  total_revenue : option Z
}.
End ProductivityRow.

Module AnalysisReportsContext.
Record t : Type := {
  land_holding_analysis : list HoldingRow.t;
  irrigation_efficiency : list EfficiencyRow.t;
  crop_productivity : list ProductivityRow.t;
  production_trend : list YearRow.t;
  regions : list Region.t;
  soil_types : list (string * string);
  total_land_area : Z;
  total_cultivated_area : Z
}.
End AnalysisReportsContext.

Module Pages.
Import Http ORM Queries.

Inductive page_context : Type :=
| Home (c : HomeContext.t)
| ParcelList (c : ParcelListContext.t)
| ParcelDetail (c : ParcelDetailContext.t)
| Dashboard (c : DashboardContext.t)
| AnalysisReports (c : AnalysisReportsContext.t)
| NotFound.

(** [render(request, template, context, status)], or the redirect of
    [@login_required], or the page with status 404 with which Django
    itself answers an [Http404] that leaves a view. *)
Inductive page : Type :=
| Page (template : string) (status : Z) (ctx : page_context)
| LoginRedirect
| PageNotFound.

Definition page_view : Type := request -> world -> page * world.

Definition login_required (v : page_view) : page_view :=
  fun req w =>
    if user_is_authenticated req then v req w else (LoginRedirect, w).

(** [CroppingPattern.objects.dates(field_name, kind)]: the truncation
    behind [dates] takes a date or time field only and raises on any
    other; [CroppingPattern] has no such field ([year] is an
    [IntegerField]). *)
Definition dates (field_name kind : string) : exc (list Z) :=
  raise (TypeError ("'" ++ field_name
                    ++ "' isn't a DateField, TimeField, or DateTimeField.")).

(** The body of the [try] of [home]. *)
Definition home_try (db : store) : exc HomeContext.t :=
  let total_land_holders := Count (land_holders db) in
  let total_parcels := Count (land_parcels db) in
  let total_cultivated_area :=
    or_0 (Sum LandParcel.cultivated_area (land_parcels db)) in
  let recent_parcels := limit 5 (land_parcels db) in
  let regions := regions db in
  let soil_types := LandParcel.SOIL_TYPES in
  let crops := limit 10 (crops db) in
  years <- dates "year" "year" ;;
  ret {| HomeContext.total_land_holders := total_land_holders;
         HomeContext.total_parcels := total_parcels;
         HomeContext.total_cultivated_area := total_cultivated_area;
         HomeContext.recent_parcels := recent_parcels;
         HomeContext.regions := regions;
         HomeContext.soil_types := soil_types;
         HomeContext.crops := crops;
         HomeContext.years := limit 5 years |}.

(** [home] *)
Definition home : page_view :=
  fun req w =>
    let context :=
      match home_try (db w) with
      | inr c => c
      | inl _ =>
          {| HomeContext.total_land_holders := 0;
             HomeContext.total_parcels := 0;
             HomeContext.total_cultivated_area := 0;
             HomeContext.recent_parcels := [];
             HomeContext.regions := [];
             HomeContext.soil_types := [];
             HomeContext.crops := [];
             HomeContext.years := [] |}
      end in
    (Page "land_analysis/home.html" 200 (Home context), w).

Definition parcel_region_name_id (db : store) (p : LandParcel.t)
  : option (string * Z) :=
  option_map (fun r => (Region.name r, Region.id r)) (parcel_region db p).

(** [LandParcel.objects.values('land_holder__region__name',
    'land_holder__region__id').annotate(total_area=Sum('total_area'),
    parcel_count=Count('id')).order_by('-total_area')] *)
Definition region_data (db : store) : list RegionDataRow.t :=
  order_by (fun a b => Stats.desc (RegionDataRow.total_area a)
                                  (RegionDataRow.total_area b))
    (map (fun kg =>
            let g := map snd (snd kg) in
            {| RegionDataRow.land_holder__region__name := fst (fst kg);
               RegionDataRow.land_holder__region__id := snd (fst kg);
               RegionDataRow.total_area := Sum LandParcel.total_area g;
               RegionDataRow.parcel_count := Count g |})
         (group_by Stats.name_id_eqb fst
            (keyed (parcel_region_name_id db) (land_parcels db)))).

(** The body of the [try] of [dashboard].  [analyses] is the table of
    [LandAnalysis], which the entity store does not hold. *)
Definition dashboard_try (db : store) (analyses : list LandAnalysis.t)
  : exc DashboardContext.t :=
  let stats :=
    {| DashboardContext.total_land_holders := Count (land_holders db);
       DashboardContext.total_parcels := Count (land_parcels db);
       DashboardContext.total_cultivated_area :=
         or_0 (Sum LandParcel.cultivated_area (land_parcels db));
       DashboardContext.avg_productivity :=
         Views.or_0Q (AvgInt LandAnalysis.productivity_score analyses) |} in
  let region_data := region_data db in
  let irrigation_data := irrigation_distribution (irrigation_systems db) in
  let crop_data := Stats.top_crops db (cropping_patterns db) in
  let charts := Utils.generate_land_analysis_charts db in
  let regions := regions db in
  let soil_types := LandParcel.SOIL_TYPES in
  let crops := crops db in
  years <- dates "year" "year" ;;
  ret {| DashboardContext.dashboard_stats := stats;
         DashboardContext.region_data := region_data;
         DashboardContext.irrigation_data := irrigation_data;
         DashboardContext.crop_data := crop_data;
         DashboardContext.charts := charts;
         DashboardContext.regions := regions;
         DashboardContext.soil_types := soil_types;
         DashboardContext.crops := crops;
         DashboardContext.years := limit 5 years |}.

Definition dashboard_view (analyses : list LandAnalysis.t) : page_view :=
  fun req w =>
    let context :=
      match dashboard_try (db w) analyses with
      | inr c => c
      | inl _ =>
          {| DashboardContext.dashboard_stats :=
               {| DashboardContext.total_land_holders := 0;
                  DashboardContext.total_parcels := 0;
                  DashboardContext.total_cultivated_area := 0;
                  DashboardContext.avg_productivity := 0%Q |};
             DashboardContext.region_data := [];
             DashboardContext.irrigation_data := [];
             DashboardContext.crop_data := [];
             DashboardContext.charts := [];
             DashboardContext.regions := [];
             DashboardContext.soil_types := [];
             DashboardContext.crops := [];
             DashboardContext.years := [] |}
      end in
    (Page "land_analysis/dashboard.html" 200 (Dashboard context), w).

Definition dashboard (analyses : list LandAnalysis.t) : page_view :=
  login_required (dashboard_view analyses).

(** [CroppingPattern.objects.filter(land_parcel__in=parcels)
    .values('crop').distinct().count()] *)
Definition unique_crops (db : store) (parcels : list LandParcel.t) : nat :=
  List.length
    (nodup Z.eq_dec
       (map CroppingPattern.crop_id
          (filter (fun c =>
                     existsb (fun p => LandParcel.id p
                                       =? CroppingPattern.land_parcel_id c)
                             parcels)
                  (cropping_patterns db)))).

(** The two [filter] calls of [land_parcel_list]. *)
Definition listed_parcels (db : store) (req : request)
  : exc (list LandParcel.t) :=
  let parcels := land_parcels db in
  let region_filter := GET_get req "region" in
  let soil_filter := GET_get req "soil_type" in
  parcels <-
    match region_filter with
    | Some r =>
        if Views.truthy_str r then
          rid <- Lookup.id_value r ;;
          ret (parcels_in_region db rid parcels)
        else ret parcels
    | None => ret parcels
    end ;;
  ret match soil_filter with
      | Some s =>
          if Views.truthy_str s then parcels_of_soil s parcels else parcels
      | None => parcels
      end.

(** The body of the [try] of [land_parcel_list]. *)
Definition land_parcel_list_try (db : store) (req : request)
  : exc ParcelListContext.t :=
  parcels <- listed_parcels db req ;;
  ret {| ParcelListContext.parcels := parcels;
         ParcelListContext.regions := regions db;
         ParcelListContext.soil_types := LandParcel.SOIL_TYPES;
         ParcelListContext.total_area :=
           or_0 (Sum LandParcel.total_area parcels);
         ParcelListContext.cultivated_area :=
           or_0 (Sum LandParcel.cultivated_area parcels);
         ParcelListContext.unique_crops := unique_crops db parcels |}.

Definition land_parcel_list_view : page_view :=
  fun req w =>
    let context :=
      match land_parcel_list_try (db w) req with
      | inr c => c
      | inl _ =>
          {| ParcelListContext.parcels := [];
             ParcelListContext.regions := [];
             ParcelListContext.soil_types := LandParcel.SOIL_TYPES;
             ParcelListContext.total_area := 0;
             ParcelListContext.cultivated_area := 0;
             ParcelListContext.unique_crops := 0 |}
      end in
    (Page "land_analysis/land_parcel_list.html" 200 (ParcelList context),
     w).

Definition land_parcel_list : page_view :=
  login_required land_parcel_list_view.

(** [(parcel.cultivated_area / parcel.total_area * 100)
    if parcel.total_area > 0 else 0] *)
Definition cultivation_percentage (parcel : LandParcel.t) : exc Q :=
  if 0 <? LandParcel.total_area parcel then
    q <- decimal_div (LandParcel.cultivated_area parcel)
                     (LandParcel.total_area parcel) ;;
    ret (q * 100)%Q
  else ret 0%Q.

(** Ascending order on (year, season), the seasons compared as text. *)
Definition year_season_le (a b : CroppingPattern.t) : bool :=
  (CroppingPattern.year a <? CroppingPattern.year b)
  || ((CroppingPattern.year a =? CroppingPattern.year b)
      && String.leb (CroppingPattern.season a) (CroppingPattern.season b)).

(** The body of the [try] of [land_parcel_detail], for a parcel that was
    found.  [analyses] is the table of [LandAnalysis], which the entity
    store does not hold. *)
Definition land_parcel_detail_try (db : store)
           (analyses : list LandAnalysis.t) (parcel : LandParcel.t)
  : exc ParcelDetailContext.t :=
  let cropping_history :=
    order_by year_season_le
      (filter (fun c => CroppingPattern.land_parcel_id c
                        =? LandParcel.id parcel)
              (cropping_patterns db)) in
  let analyses :=
    order_by (fun a b => LandAnalysis.analysis_date b
                         <=? LandAnalysis.analysis_date a)
      (filter (fun a => LandAnalysis.land_parcel_id a
                        =? LandParcel.id parcel) analyses) in
  cultivation_percentage <- cultivation_percentage parcel ;;
  ret {| ParcelDetailContext.parcel := parcel;
         ParcelDetailContext.cropping_history := cropping_history;
         ParcelDetailContext.analyses := analyses;
         ParcelDetailContext.cultivation_percentage :=
           cultivation_percentage |}.

(** What leaves a view as an exception: [Http404] is answered by Django
    itself; [land_parcel_detail] handles [DoesNotExist], which
    [get_object_or_404] never lets through, with the page of the
    application; anything else is a server error. *)
Inductive outcome : Type :=
| Answered (p : page)
| ServerError (e : exception).

Definition land_parcel_detail_view (analyses : list LandAnalysis.t)
           (pk : Z) : request -> world -> outcome * world :=
  fun req w =>
    match get_land_parcel (db w) pk with
    | None => (Answered PageNotFound, w)
    | Some parcel =>
        match land_parcel_detail_try (db w) analyses parcel with
        | inr c =>
            (Answered (Page "land_analysis/land_parcel_detail.html" 200
                         (ParcelDetail c)), w)
        | inl (DoesNotExist _) =>
            (Answered (Page "land_analysis/404.html" 404 NotFound), w)
        | inl e => (ServerError e, w)
        end
    end.

Definition land_parcel_detail (analyses : list LandAnalysis.t) (pk : Z)
  : request -> world -> outcome * world :=
  fun req w =>
    if user_is_authenticated req
    then land_parcel_detail_view analyses pk req w
    else (Answered LoginRedirect, w).

(** [Avg(field, distinct=True)] over a nullable key: the average of the
    distinct values that are not [NULL]. *)
Definition AvgDistinct {A} (field : A -> option Z) (rows : list A)
  : option Q :=
  AvgInt (fun z => z)
    (nodup Z.eq_dec
       (flat_map (fun x => match field x with
                           | Some z => [z]
                           | None => []
                           end) rows)).

(** [LandHolder.objects.values('ownership_type').annotate(
    count=Count('id'), total_land=Sum('parcels__total_area'),
    avg_parcels=Avg('parcels__id', distinct=True))] *)
Definition land_holding_analysis (db : store) : list HoldingRow.t :=
  map (fun kg =>
         {| HoldingRow.ownership_type := fst kg;
            HoldingRow.count := Count (snd kg);
            HoldingRow.total_land :=
              Stats.SumNullable
                (fun hp => option_map LandParcel.total_area (snd hp))
                (snd kg);
            HoldingRow.avg_parcels :=
              AvgDistinct (fun hp => option_map LandParcel.id (snd hp))
                          (snd kg) |})
      (group_by String.eqb
         (fun hp => LandHolder.ownership_type (fst hp))
         (Stats.holders_with_parcels db)).

(** [IrrigationSystem.objects.values('system_type').annotate(
    avg_efficiency=Avg('efficiency_rating'),
    avg_water_usage=Avg('annual_water_usage'))] *)
Definition irrigation_efficiency (db : store) : list EfficiencyRow.t :=
  map (fun kg =>
         {| EfficiencyRow.system_type := fst kg;
            EfficiencyRow.avg_efficiency :=
              AvgInt IrrigationSystem.efficiency_rating (snd kg);
            EfficiencyRow.avg_water_usage :=
              Avg IrrigationSystem.annual_water_usage (snd kg) |})
      (group_by String.eqb IrrigationSystem.system_type
         (irrigation_systems db)).

Definition pattern_crop_columns (db : store) (cp : CroppingPattern.t)
  : option (string * string * Z) :=
  option_map (fun c => (Crop.name c, Crop.crop_type c, Crop.id c))
    (get_crop db (CroppingPattern.crop_id cp)).

Definition crop_columns_eqb (a b : string * string * Z) : bool :=
  String.eqb (fst (fst a)) (fst (fst b))
  && String.eqb (snd (fst a)) (snd (fst b))
  && (snd a =? snd b).

(** [CroppingPattern.objects.values('crop__name', 'crop__crop_type',
    'crop__id').annotate(total_area=Sum('area_allocated'),
    avg_yield=Avg('yield_amount'), total_revenue=Sum('revenue'))
    .order_by('-total_revenue')] *)
Definition crop_productivity (db : store) : list ProductivityRow.t :=
  order_by (fun a b => Stats.desc (ProductivityRow.total_revenue a)
                                  (ProductivityRow.total_revenue b))
    (map (fun kg =>
            let g := map snd (snd kg) in
            {| ProductivityRow.crop__name := fst (fst (fst kg));
               ProductivityRow.crop__crop_type := snd (fst (fst kg));
               ProductivityRow.crop__id := snd (fst kg);
               ProductivityRow.total_area :=
                 Sum CroppingPattern.area_allocated g;
               ProductivityRow.avg_yield :=
                 Avg CroppingPattern.yield_amount g;
               ProductivityRow.total_revenue :=
                 Sum CroppingPattern.revenue g |})
         (group_by crop_columns_eqb fst
            (keyed (pattern_crop_columns db) (cropping_patterns db)))).




End Pages.

(** ** context_processors.py *)

Module ContextProcessors.
Import ORM.

Record stats : Type := {
  total_land_holders : nat;
  total_parcels : nat;
  total_cultivated_area : Z;
  total_crops_planted : nat
}.


Definition app_name : string := "AgriSite".

End ContextProcessors.

(** ** views.py: api_analysis_data *)

Module Api.
Import Http ORM Queries Rows Stats.

Definition crop_area_yield_json (r : CropRow.t) : json :=
  JObject [("crop__name", JString (CropRow.crop__name r));
           ("total_area", opt_json JDecimal (CropRow.total_area r));
           ("total_yield", opt_json JDecimal (CropRow.total_yield r))].

Definition year_row_json (r : YearRow.t) : json :=
  JObject [("year", JInt (YearRow.year r));
           ("total_yield", opt_json JDecimal (YearRow.total_yield r));
           ("total_revenue", opt_json JDecimal (YearRow.total_revenue r))].

(** [analysis_type in [...]] *)
Definition one_of (s : string) (l : list string) : bool :=
  existsb (String.eqb s) l.

(** [response_data[key] = value] for a key that is not yet there. *)
Definition set_key (key : string) (value : json)
           (d : list (string * json)) : list (string * json) :=
  d ++ [(key, value)].

(** The body of the [try] of [api_analysis_data], up to the response. *)
Definition api_analysis_data_dict (db : store) (req : request)
  : list (string * json) :=
  let analysis_type := GET_get_default req "type" "comprehensive" in
  let response_data := [] in
  let response_data :=
    if one_of analysis_type ["comprehensive"; "land"] then
      set_key "land_analysis"
        (JArray (map Views.holder_row_json (land_holding_analysis db)))
        response_data
    else response_data in
  let response_data :=
    if one_of analysis_type ["comprehensive"; "irrigation"] then
      set_key "irrigation_analysis"
        (JArray (map Views.irrigation_row_json
                   (irrigation_distribution (irrigation_systems db))))
        response_data
    else response_data in
  let response_data :=
    if one_of analysis_type ["comprehensive"; "crops"] then
      set_key "crop_analysis"
        (JArray (map crop_area_yield_json
                   (crop_totals db (cropping_patterns db))))
        response_data
    else response_data in
  let response_data :=
    if one_of analysis_type ["comprehensive"; "trends"] then
      set_key "production_trends"
        (JArray (map year_row_json
                   (production_trend (cropping_patterns db))))
        response_data
    else response_data in
  set_key "status" (JString "success") response_data.

Definition api_analysis_data_view : Views.view :=
  fun req w =>
    (Views.JsonResponse (JObject (api_analysis_data_dict (db w) req)) 200,
     w).

Definition api_analysis_data : Views.view :=
  Views.login_required api_analysis_data_view.

End Api.

(** ** Referential integrity of a store *)

Module Integrity.
Import ORM.

Definition is_some {A} (o : option A) : bool :=
  match o with
  | Some _ => true
  | None => false
  end.

(** The holder of the parcel and the region of that holder exist. *)
Definition parcel_linked (db : store) (p : LandParcel.t) : bool :=
  is_some (parcel_region db p).


End Integrity.

(** ** The scope of a statistics request, as the specification words it *)

Module Scope.
Import Http ORM.

(** A filter scope: an optional region and an optional soil type. *)
Record t : Type := {
  region : option Z;
  soil_type : option string
}.

(** The scope that the query parameters [region] and [soil_type] denote;
    there is none when [region] is given and is not a number, or is a
    number beyond the keys that the database holds. *)
Definition of_request (req : request) : option t :=
  let soil := match GET_get req "soil_type" with
              | Some "" => None
              | o => o
              end in
  match GET_get req "region" with
  | None | Some "" => Some {| region := None; soil_type := soil |}
  | Some s =>
      match PyInt.int s with
      | Some rid =>
          if Lookup.sqlite_integer rid
          then Some {| region := Some rid; soil_type := soil |}
          else None
      | None => None
      end
  end.

(** A parcel is in scope when its holder lies in the region of the scope
    and its soil is the soil type of the scope, for each that is given. *)
Definition contains (db : store) (sc : t) (p : LandParcel.t) : bool :=
  match region sc with
  | Some rid => opt_eqb (parcel_region_id db p) rid
  | None => true
  end
  &&
  match soil_type sc with
  | Some s => String.eqb (LandParcel.soil_type p) s
  | None => true
  end.

Definition parcels (db : store) (sc : t) : list LandParcel.t :=
  filter (contains db sc) (land_parcels db).

End Scope.


(** ** A small store, used to run the definitions *)

Module Sample.
Import Http.

Definition north : Region.t :=
  {| Region.id := 1; Region.name := "North"; Region.code := "N";
     Region.total_area := 100000 |}.

(** A region that has no land holder, hence no parcel. *)
Definition south : Region.t :=
  {| Region.id := 2; Region.name := "South"; Region.code := "S";
     Region.total_area := 50000 |}.

Definition holder : LandHolder.t :=
  {| LandHolder.id := 1; LandHolder.name := "Asha";
     LandHolder.ownership_type := "individual";
     LandHolder.contact_email := ""; LandHolder.contact_phone := "";
     LandHolder.region_id := 1 |}.

(** 10.00 ha, 7.50 ha of them cultivated, loamy *)
Definition parcel_a : LandParcel.t :=
  {| LandParcel.id := 1; LandParcel.land_holder_id := 1;
     LandParcel.parcel_id := "NP-001"; LandParcel.total_area := 1000;
     LandParcel.cultivated_area := 750; LandParcel.soil_type := "loamy";
     LandParcel.latitude := None; LandParcel.longitude := None |}.

(** 5.00 ha, 2.00 ha of them cultivated, clay *)
Definition parcel_b : LandParcel.t :=
  {| LandParcel.id := 2; LandParcel.land_holder_id := 1;
     LandParcel.parcel_id := "NP-002"; LandParcel.total_area := 500;
     LandParcel.cultivated_area := 200; LandParcel.soil_type := "clay";
     LandParcel.latitude := None; LandParcel.longitude := None |}.

Definition wheat : Crop.t :=
  {| Crop.id := 1; Crop.name := "Wheat"; Crop.crop_type := "cereal";
     Crop.season := "rabi"; Crop.growth_period := 120;
     Crop.water_requirement := 45000 |}.

Definition rice : Crop.t :=
  {| Crop.id := 2; Crop.name := "Rice"; Crop.crop_type := "cereal";
     Crop.season := "kharif"; Crop.growth_period := 150;
     Crop.water_requirement := 120000 |}.

(** Rice on parcel NP-001 in 2023: 10.00 ha, 20.00 t *)
Definition rice_2023 : CroppingPattern.t :=
  {| CroppingPattern.id := 1; CroppingPattern.land_parcel_id := 1;
     CroppingPattern.crop_id := 2; CroppingPattern.year := 2023;
     CroppingPattern.season := "kharif";
     CroppingPattern.area_allocated := 1000;
     CroppingPattern.yield_amount := 2000;
     CroppingPattern.revenue := 5000000 |}.

(** Rice on parcel NP-002 in 2024: 4.00 ha, 10.00 t *)
Definition rice_2024 : CroppingPattern.t :=
  {| CroppingPattern.id := 2; CroppingPattern.land_parcel_id := 2;
     CroppingPattern.crop_id := 2; CroppingPattern.year := 2024;
     CroppingPattern.season := "kharif";
     CroppingPattern.area_allocated := 400;
     CroppingPattern.yield_amount := 1000;
     CroppingPattern.revenue := 2500000 |}.

(** Wheat on parcel NP-001 in 2023, recorded with 0.00 ha and 5.00 t *)
Definition wheat_2023 : CroppingPattern.t :=
  {| CroppingPattern.id := 3; CroppingPattern.land_parcel_id := 1;
     CroppingPattern.crop_id := 1; CroppingPattern.year := 2023;
     CroppingPattern.season := "rabi";
     CroppingPattern.area_allocated := 0;
     CroppingPattern.yield_amount := 500;
     CroppingPattern.revenue := 0 |}.

Definition drip : IrrigationSystem.t :=
  {| IrrigationSystem.id := 1; IrrigationSystem.land_parcel_id := 1;
     IrrigationSystem.system_type := "drip";
     IrrigationSystem.water_source := "well";
     IrrigationSystem.efficiency_rating := 85;
     IrrigationSystem.annual_water_usage := 1200000;
     IrrigationSystem.is_automated := true |}.

Definition store_with (patterns : list CroppingPattern.t) : store :=
  {| regions := [north; south];
     land_holders := [holder];
     land_parcels := [parcel_a; parcel_b];
     irrigation_systems := [drip];
     crops := [wheat; rice];
     cropping_patterns := patterns |}.

Definition farm : store := store_with [rice_2023; rice_2024].

(** The same store with the wheat record whose allocated area is zero. *)
Definition farm_zero_area : store :=
  store_with [rice_2023; rice_2024; wheat_2023].

Definition environment_with (reportlab : bool) : environment :=
  {| REPORTLAB_AVAILABLE := reportlab;
     now_strftime := fun fmt =>
       if String.eqb fmt "%Y%m%d" then "20240115" else "January 15, 2024";
     doc_build_error := fun _ => None;
     division_by_zero_raises := false |}.


Definition logged_in (params : list (string * string)) : request :=
  {| user_is_authenticated := true; GET := params |}.

Definition world_of (d : store) : world := {| db := d; messages := [] |}.

End Sample.

(** ** Measures of a grouping *)

(** The number of rows in all groups. *)
Definition group_sizes {A K} (groups : list (K * list A)) : nat :=
  list_sum (map (fun g => List.length (snd g)) groups).


(** * Properties *)

(** ** Grouping is a partition *)

Section GroupByFacts.
Context {A K : Type} (eqb : K -> K -> bool) (key : A -> K).
Hypothesis eqb_eq : forall a b, eqb a b = true <-> a = b.


Lemma add_to_group_sizes (x : A) (groups : list (K * list A)) :
  group_sizes (ORM.add_to_group eqb key x groups) = S (group_sizes groups).
Proof.
  unfold group_sizes.
  induction groups as [|[k g] rest IH]; simpl; [reflexivity|].
  destruct (eqb k (key x)); simpl.
  - rewrite length_app; simpl; lia.
  - rewrite IH; lia.
Qed.


Lemma add_to_group_keys (x : A) (groups : list (K * list A)) :
  map fst (ORM.add_to_group eqb key x groups)
  = if existsb (fun k => eqb k (key x)) (map fst groups)
    then map fst groups
    else map fst groups ++ [key x].
Proof.
  induction groups as [|[k g] rest IH]; simpl; [reflexivity|].
  destruct (eqb k (key x)); simpl; [reflexivity|].
  rewrite IH.
  destruct (existsb _ _); reflexivity.
Qed.

Lemma add_to_group_NoDup (x : A) (groups : list (K * list A)) :
  NoDup (map fst groups) ->
  NoDup (map fst (ORM.add_to_group eqb key x groups)).
Proof.
  intros Hnd. rewrite add_to_group_keys.
  destruct (existsb _ _) eqn:Hex; [assumption|].
  apply NoDup_app; [assumption | repeat constructor; intros [] | ].
  intros k Hin [Hk|[]]. subst k.
  assert (existsb (fun k => eqb k (key x)) (map fst groups) = true)
    as Hyes.
  { apply existsb_exists. exists (key x). split; [assumption|].
    apply eqb_eq. reflexivity. }
  congruence.
Qed.


Lemma fold_add_sizes (rows : list A) (groups : list (K * list A)) :
  group_sizes
    (fold_left (fun gs x => ORM.add_to_group eqb key x gs) rows groups)
  = (List.length rows + group_sizes groups)%nat.
Proof.
  revert groups.
  induction rows as [|x rows IH]; intros groups; simpl; [reflexivity|].
  rewrite IH, add_to_group_sizes. lia.
Qed.


Lemma group_by_sizes (rows : list A) :
  group_sizes (ORM.group_by eqb key rows) = List.length rows.
Proof.
  unfold ORM.group_by. rewrite fold_add_sizes.
  unfold group_sizes; simpl. lia.
Qed.


Lemma group_by_NoDup (rows : list A) :
  NoDup (map fst (ORM.group_by eqb key rows)).
Proof.
  unfold ORM.group_by.
  assert (forall groups,
             NoDup (map fst groups) ->
             NoDup (map fst (fold_left
                               (fun gs x => ORM.add_to_group eqb key x gs)
                               rows groups))) as Hgen.
  { induction rows as [|x rows IH]; intros groups Hnd; simpl;
      [assumption|].
    apply IH, add_to_group_NoDup, Hnd. }
  apply Hgen. constructor.
Qed.








End GroupByFacts.

(** ** Aggregates *)

Lemma or_0_Sum {A} (f : A -> Z) (rows : list A) :
  or_0 (ORM.Sum f rows) = sumZ (map f rows).
Proof.
  destruct rows as [|x rows]; [reflexivity|].
  unfold ORM.Sum, or_0.
  destruct (Z.eqb_spec (sumZ (map f (x :: rows))) 0) as [H0|_];
    [symmetry; exact H0 | reflexivity].
Qed.

Lemma Sum_not_null {A} (f : A -> Z) (rows : list A) :
  rows <> [] -> ORM.Sum f rows <> None.
Proof. destruct rows; [congruence | discriminate]. Qed.

Lemma filter_twice {A} (f g : A -> bool) (l : list A) :
  filter g (filter f l) = filter (fun x => f x && g x) l.
Proof.
  induction l as [|x l IH]; simpl; [reflexivity|].
  destruct (f x); simpl; [|exact IH].
  destruct (g x); rewrite IH; reflexivity.
Qed.

Lemma filter_all {A} (f : A -> bool) (l : list A) :
  (forall x, f x = true) -> filter f l = l.
Proof.
  intros Hf. induction l as [|x l IH]; simpl; [reflexivity|].
  rewrite Hf, IH. reflexivity.
Qed.

Lemma string_eqb_eq (a b : string) : String.eqb a b = true <-> a = b.
Proof. apply String.eqb_eq. Qed.



Lemma soil_distribution_distinct (qs : list LandParcel.t) :
  NoDup (map SoilRow.soil_type (Queries.soil_distribution qs)).
Proof.
  unfold Queries.soil_distribution. rewrite map_map. simpl.
  exact (group_by_NoDup String.eqb LandParcel.soil_type string_eqb_eq qs).
Qed.



(** The filters of [api_land_stats] select the parcels of the scope. *)
Lemma apply_filters_scope (db : store) (req : Http.request) (sc : Scope.t) :
  Scope.of_request req = Some sc ->
  exists q, Views.apply_filters db req = inr q
            /\ Views.qs_land_parcels q = Scope.parcels db sc.
Proof.
  unfold Scope.of_request, Views.apply_filters, Scope.parcels,
    Scope.contains.
  destruct (Http.GET_get req "region") as [[|c s]|];
    destruct (Http.GET_get req "soil_type") as [[|c' s']|]; simpl;
    unfold Views.filter_region, Lookup.id_value;
    try (destruct (PyInt.int (String c s)) as [rid|]; [|discriminate];
         destruct (Lookup.sqlite_integer rid); [|discriminate]);
    intros Hsc; injection Hsc as <-; simpl;
    eexists; (split; [reflexivity|]); simpl;
    unfold ORM.parcels_of_soil, ORM.parcels_in_region;
    try rewrite filter_twice;
    try (symmetry; apply filter_all; reflexivity);
    try (apply filter_ext; intros p; rewrite ?andb_true_r; reflexivity).
Qed.

(** ** Aggregations over an empty store *)





(** ** The crop productivity chart *)

(** The productivity column is computed for a frame exactly when no row of
    it has a zero total area. *)
Lemma column_div_succeeds (df_crop : list CropRow.t) :
  Forall (fun r => exists y a, CropRow.total_yield r = Some y
                               /\ CropRow.total_area r = Some a
                               /\ a <> 0) df_crop ->
  exists qs, Utils.column_div df_crop = inr qs
             /\ List.length qs = List.length df_crop.
Proof.
  induction 1 as [|r rest (y & a & Hy & Ha & Hnz) _ (qs & IH & Hlen)];
    simpl.
  - exists []. split; reflexivity.
  - rewrite Hy, Ha. unfold decimal_div.
    destruct (Z.eqb_spec a 0) as [|_]; [contradiction|]. simpl.
    rewrite IH. simpl. eexists. split; [reflexivity|].
    simpl. rewrite Hlen. reflexivity.
Qed.

(** A row whose total area is zero makes the quotient of the columns
    raise, wherever it stands in the frame. *)
Lemma column_div_raises (df_crop : list CropRow.t) :
  Exists (fun r => CropRow.total_area r = Some 0) df_crop ->
  exists e, Utils.column_div df_crop = inl e.
Proof.
  induction 1 as [r rest Hzero | r rest _ (e & IH)]; simpl.
  - rewrite Hzero.
    destruct (CropRow.total_yield r) as [y|]; simpl.
    + unfold decimal_div. simpl. destruct (y =? 0); eexists; reflexivity.
    + eexists; reflexivity.
  - destruct (match CropRow.total_yield r, CropRow.total_area r with
              | Some y, Some a => decimal_div y a
              | _, _ => raise (TypeError "unsupported operand type(s) for /")
              end) as [e'|q]; simpl.
    + eexists; reflexivity.
    + rewrite IH. simpl. eexists; reflexivity.
Qed.

(** Whenever one of the first ten crop groups has a positive total area
    and another has a zero total area, no chart at all is returned. *)
Lemma zero_area_group_drops_all_charts (db : store) :
  let crop_data :=
    ORM.limit 10 (Queries.crop_totals db (cropping_patterns db)) in
  Utils.any_total_area_positive crop_data = true ->
  Exists (fun r => CropRow.total_area r = Some 0) crop_data ->
  Utils.generate_land_analysis_charts db = [].
Proof.
  intros crop_data Hany Hzero.
  destruct (column_div_raises crop_data Hzero) as (e & Hraise).
  unfold Utils.generate_land_analysis_charts,
    Utils.generate_land_analysis_charts_try, Utils.crop_productivity_chart.
  fold crop_data.
  destruct crop_data as [|r rest] eqn:Hdata.
  - inversion Hzero.
  - rewrite Hany, Hraise. reflexivity.
Qed.

(** C2. The guard of the productivity chart asks whether some group has a
    positive total area, not whether each has.  In a store where rice has
    14.00 ha and wheat a record of 0.00 ha, the guard passes, the quotient
    is taken for the wheat group too, the division raises, and
    [generate_land_analysis_charts] drops every chart; without the wheat
    record the five charts are produced. *)
Theorem C2_zero_area_group_is_divided :
  map CropRow.total_area
      (Queries.crop_totals Sample.farm_zero_area
         (cropping_patterns Sample.farm_zero_area))
  = [Some 1400; Some 0]
  /\ Utils.any_total_area_positive
       (Queries.crop_totals Sample.farm_zero_area
          (cropping_patterns Sample.farm_zero_area)) = true
  /\ Utils.crop_productivity_chart Sample.farm_zero_area
     = inl DivisionByZero
  /\ Utils.generate_land_analysis_charts_try Sample.farm_zero_area
     = inl DivisionByZero
  /\ Utils.generate_land_analysis_charts Sample.farm_zero_area = []
  /\ map fst (Utils.generate_land_analysis_charts Sample.farm)
     = ["soil_distribution"; "irrigation_distribution"; "crop_productivity";
        "production_trend"; "ownership_distribution"].
Proof. repeat split; vm_compute; reflexivity. Qed.

(** ** A region without parcels *)

(** The [aggregate] call of [region_analysis] never runs its query: the
    second member is named [total_area], and the [Avg('total_area')] of
    the third resolves to that member. *)
Lemma aggregate_region_stats_raises (env : environment)
      (qs : list LandParcel.t) :
  Stats.aggregate_region_stats env qs
  = inl (FieldError
           "Cannot compute Avg('total_area'): 'total_area' is an aggregate").
Proof. reflexivity. Qed.

Lemma region_analysis_try_raises (env : environment) (db : store)
      (region : Region.t) :
  Views.region_analysis_try env db region
  = inl (FieldError
           "Cannot compute Avg('total_area'): 'total_area' is an aggregate").
Proof. reflexivity. Qed.

(** C3 (the code at a region without parcels). South is a region of the
    sample store and has no parcel.  The [aggregate] call of
    [region_analysis] raises [FieldError] before any row is read, and the
    handler of the view renders the page with an empty [region_stats] and
    empty crop, soil and irrigation lists: the page carries neither
    [total_parcels] 0 nor [total_area] 0 nor [avg_parcel_size] 0, which
    the claim asks for. *)
Theorem C3_region_without_parcels_has_no_statistics :
  ORM.get_region Sample.farm 2 = Some Sample.south
  /\ ORM.parcels_in_region Sample.farm 2 (land_parcels Sample.farm) = []
  /\ Stats.aggregate_region_stats (Sample.environment_with true) []
     = inl (FieldError
              "Cannot compute Avg('total_area'): 'total_area' is an aggregate")
  /\ Views.region_analysis (Sample.environment_with true) 2
       (Sample.logged_in []) (Sample.world_of Sample.farm)
     = (Views.render "land_analysis/region_analysis.html"
          (Views.RegionAnalysisContext Sample.south None [] [] []) 200,
        Sample.world_of Sample.farm).
Proof.
  repeat split.
Qed.

(** ** The area check of the parcel form *)

(** C4 (as the code has it). When both areas are present and neither is
    zero, [LandParcelForm.clean] accepts the data exactly when the
    cultivated area is at most the total area, and rejects a larger
    cultivated area with the validation error on [cultivated_area]; it
    checks no lower bound. *)
Theorem C4_clean_checks_upper_bound
        (cd : Forms.cleaned_data) (total cultivated : decimal2) :
  Forms.total_area cd = Some total ->
  Forms.cultivated_area cd = Some cultivated ->
  total <> 0 ->
  cultivated <> 0 ->
  (Forms.clean cd = inr cd <-> cultivated <= total)
  /\ (cultivated > total ->
      Forms.clean cd
      = inl (Forms.ValidationError "cultivated_area"
               "Cultivated area cannot be greater than total area.")).
Proof.
  intros Ht Hc Htnz Hcnz.
  unfold Forms.clean, Forms.truthy, Forms.gt. rewrite Ht, Hc.
  destruct (Z.eqb_spec total 0) as [|_]; [contradiction|].
  destruct (Z.eqb_spec cultivated 0) as [|_]; [contradiction|].
  simpl.
  destruct (Z.ltb_spec total cultivated) as [Hlt|Hle]; split.
  - split; [discriminate | lia].
  - reflexivity.
  - split; [intros _; exact Hle | reflexivity].
  - lia.
Qed.

Lemma C4_clean_witness :
  Forms.clean
    {| Forms.land_holder := Some 1; Forms.parcel_id := Some "NP-003";
       Forms.total_area := Some 1000; Forms.cultivated_area := Some 1250;
       Forms.soil_type := Some "loamy"; Forms.latitude := None;
       Forms.longitude := None |}
  = inl (Forms.ValidationError "cultivated_area"
           "Cultivated area cannot be greater than total area.").
Proof.
  apply (C4_clean_checks_upper_bound
           {| Forms.land_holder := Some 1; Forms.parcel_id := Some "NP-003";
              Forms.total_area := Some 1000;
              Forms.cultivated_area := Some 1250;
              Forms.soil_type := Some "loamy"; Forms.latitude := None;
              Forms.longitude := None |} 1000 1250 eq_refl eq_refl);
    lia.
Defined.

(** C4 as stated fails: a parcel of 10.00 ha with a cultivated area of
    -1.00 ha passes [clean]. *)
Lemma C4_counterexample :
  let cd := {| Forms.land_holder := Some 1;
               Forms.parcel_id := Some "NP-003";
               Forms.total_area := Some 1000;
               Forms.cultivated_area := Some (-100);
               Forms.soil_type := Some "loamy"; Forms.latitude := None;
               Forms.longitude := None |} in
  Forms.clean cd = inr cd
  /\ Forms.cultivated_area cd = Some (-100)
  /\ -100 < 0.
Proof. simpl. repeat split. Qed.

(** ** The soil distribution of the statistics API *)



(** ** Exports *)

(** C6. With no parcel in the store, the CSV export of [land_parcels] is
    one line that holds no field: the frame built from no record has no
    column, so the header line names none of the six columns that the
    export of a store with parcels names. *)
Theorem C6_empty_store_csv_has_no_column_names :
  Views.export_data "land_parcels" (Sample.logged_in [("format", "csv")])
    (Sample.world_of empty_store)
  = (Views.HttpResponse 200 "text/csv" (Some "land_parcels.csv")
       (Views.Csv [[]]), Sample.world_of empty_store)
  /\ Http.columns (Http.DataFrame_of_records
                     (Views.land_parcel_records empty_store)) = []
  /\ Http.columns (Http.DataFrame_of_records
                     (Views.land_parcel_records Sample.farm))
     = ["parcel_id"; "total_area"; "cultivated_area"; "soil_type";
        "land_holder__name"; "land_holder__region__name"].
Proof. repeat split. Qed.

(** C10. For every data type other than the four that are exported, a
    logged-in request to [export_data] is answered with status 400 and the
    JSON object that holds the error [Invalid data type]; the store and
    the messages are left as they were. *)
Theorem C10_invalid_data_type
        (data_type : string) (req : Http.request) (w : Http.world) :
  Http.user_is_authenticated req = true ->
  data_type <> "land_parcels" ->
  data_type <> "cropping_patterns" ->
  data_type <> "irrigation_systems" ->
  data_type <> "comprehensive_report" ->
  Views.export_data data_type req w
  = (Views.HttpResponse 400 "application/json" None
       (Views.Json (Http.JObject
                      [("error", Http.JString "Invalid data type")])), w)
  /\ Http.db (snd (Views.export_data data_type req w)) = Http.db w.
Proof.
  intros Hauth H1 H2 H3 H4.
  assert (Views.export_data data_type req w
          = (Views.HttpResponse 400 "application/json" None
               (Views.Json (Http.JObject
                              [("error", Http.JString "Invalid data type")])),
             w)) as Hresp.
  { unfold Views.export_data, Views.login_required, Views.export_data_view.
    rewrite Hauth.
    apply String.eqb_neq in H1, H2, H3, H4.
    rewrite H1, H2, H3, H4. reflexivity. }
  split; [exact Hresp | rewrite Hresp; reflexivity].
Qed.

Lemma C10_invalid_data_type_witness :
  Views.export_data "land_holders" (Sample.logged_in [("format", "csv")])
    (Sample.world_of Sample.farm)
  = (Views.HttpResponse 400 "application/json" None
       (Views.Json (Http.JObject
                      [("error", Http.JString "Invalid data type")])),
     Sample.world_of Sample.farm).
Proof.
  apply (C10_invalid_data_type "land_holders"
           (Sample.logged_in [("format", "csv")])
           (Sample.world_of Sample.farm) eq_refl);
    discriminate.
Defined.

(** ** Document reports *)







(** * Further properties of the queries *)

(** ** Ordering *)

Section OrderByFacts.
Context {A : Type} (le : A -> A -> bool).

Lemma insert_sorted_perm (x : A) (l : list A) :
  Permutation (ORM.insert_sorted le x l) (x :: l).
Proof.
  induction l as [|y ys IH]; simpl; [reflexivity|].
  destruct (le x y); [reflexivity|].
  rewrite IH. apply perm_swap.
Qed.

Lemma order_by_perm (l : list A) : Permutation (ORM.order_by le l) l.
Proof.
  induction l as [|x l IH]; simpl; [reflexivity|].
  rewrite insert_sorted_perm. constructor. exact IH.
Qed.

Hypothesis le_total : forall a b, le a b = true \/ le b a = true.

Lemma insert_sorted_hd (x y : A) (l : list A) :
  le y x = true ->
  HdRel (fun a b => le a b = true) y l ->
  HdRel (fun a b => le a b = true) y (ORM.insert_sorted le x l).
Proof.
  intros Hyx Hhd. destruct l as [|z zs]; simpl.
  - constructor. exact Hyx.
  - inversion Hhd; subst. destruct (le x z); constructor; assumption.
Qed.

Lemma insert_sorted_sorted (x : A) (l : list A) :
  Sorted (fun a b => le a b = true) l ->
  Sorted (fun a b => le a b = true) (ORM.insert_sorted le x l).
Proof.
  induction 1 as [|y ys Hsorted IH Hhd]; simpl.
  - repeat constructor.
  - destruct (le x y) eqn:Hxy.
    + constructor; [constructor; assumption | constructor; exact Hxy].
    + constructor; [exact IH|].
      apply insert_sorted_hd; [|exact Hhd].
      destruct (le_total x y) as [H|H]; [congruence | exact H].
Qed.

Lemma order_by_sorted (l : list A) :
  Sorted (fun a b => le a b = true) (ORM.order_by le l).
Proof.
  induction l as [|x l IH]; simpl; [constructor|].
  apply insert_sorted_sorted. exact IH.
Qed.

End OrderByFacts.

Lemma Sorted_firstn {A} (R : A -> A -> Prop) (n : nat) (l : list A) :
  Sorted R l -> Sorted R (firstn n l).
Proof.
  revert l. induction n as [|n IH]; intros l Hs; simpl; [constructor|].
  destruct l as [|x l]; [constructor|].
  inversion Hs as [|? ? Hs' Hhd]; subst.
  constructor; [apply IH; exact Hs'|].
  destruct l as [|y l]; [destruct n; constructor|].
  inversion Hhd; subst.
  destruct n; simpl; constructor. assumption.
Qed.


Lemma desc_total (a b : option Z) :
  Stats.desc a b = true \/ Stats.desc b a = true.
Proof.
  destruct a as [x|], b as [y|]; simpl; auto.
  destruct (Z.leb_spec y x); [left; reflexivity | right].
  apply Z.leb_le. lia.
Qed.



(** X2. The top crops of a region are at most ten rows, in descending
    order of their total area. *)
Theorem top_crops_at_most_ten_descending
        (db : store) (qs : list CroppingPattern.t) :
  (List.length (Stats.top_crops db qs) <= 10)%nat
  /\ Sorted (fun a b => Stats.desc (Rows.TopCropRow.total_area a)
                                   (Rows.TopCropRow.total_area b) = true)
            (Stats.top_crops db qs).
Proof.
  unfold Stats.top_crops, ORM.limit. split.
  - apply firstn_le_length.
  - apply Sorted_firstn.
    apply (order_by_sorted
             (fun a b => Stats.desc (Rows.TopCropRow.total_area a)
                                    (Rows.TopCropRow.total_area b))).
    intros a b. apply desc_total.
Qed.

(** ** More partitions *)



(** X3. The irrigation distribution partitions the irrigation systems it
    is computed from: the system types of its rows are pairwise distinct
    and the counts sum to the number of systems. *)
Theorem irrigation_distribution_partitions
        (qs : list IrrigationSystem.t) :
  NoDup (map IrrigationRow.system_type (Queries.irrigation_distribution qs))
  /\ list_sum (map IrrigationRow.count (Queries.irrigation_distribution qs))
     = List.length qs.
Proof.
  unfold Queries.irrigation_distribution. rewrite !map_map. simpl. split.
  - exact (group_by_NoDup String.eqb IrrigationSystem.system_type
                          string_eqb_eq qs).
  - exact (group_by_sizes String.eqb IrrigationSystem.system_type qs).
Qed.




Lemma list_sum_app (l1 l2 : list nat) :
  list_sum (l1 ++ l2) = (list_sum l1 + list_sum l2)%nat.
Proof.
  induction l1 as [|x l1 IH]; simpl; [reflexivity | rewrite IH; lia].
Qed.





(** ** Land utilisation *)

Lemma sum_bounds (qs : list LandParcel.t) :
  Forall (fun p => 0 <= LandParcel.cultivated_area p
                   <= LandParcel.total_area p) qs ->
  0 <= sumZ (map LandParcel.cultivated_area qs)
  <= sumZ (map LandParcel.total_area qs).
Proof.
  induction 1 as [|p qs Hp _ IH]; simpl; lia.
Qed.

Lemma utilization_try_value (db : store) :
  Utils.calculate_land_utilization_efficiency_try db
  = inr {| Utils.total_land :=
             sumZ (map LandParcel.total_area (land_parcels db));
           Utils.cultivated_land :=
             sumZ (map LandParcel.cultivated_area (land_parcels db));
           Utils.utilization_rate :=
             if 0 <? sumZ (map LandParcel.total_area (land_parcels db))
             then (dec_value
                     (sumZ (map LandParcel.cultivated_area
                                (land_parcels db)))
                   / dec_value
                       (sumZ (map LandParcel.total_area (land_parcels db)))
                   * 100)%Q
             else 0%Q;
           Utils.uncultivated_land :=
             sumZ (map LandParcel.total_area (land_parcels db))
             - sumZ (map LandParcel.cultivated_area (land_parcels db)) |}.
Proof.
  unfold Utils.calculate_land_utilization_efficiency_try.
  rewrite !or_0_Sum. cbv zeta. unfold decimal2.
  set (total := sumZ (@map _ Z LandParcel.total_area (land_parcels db))).
  set (cultivated :=
         sumZ (@map _ Z LandParcel.cultivated_area (land_parcels db))).
  destruct (0 <? total) eqn:Hpos; [|reflexivity].
  apply Z.ltb_lt in Hpos. unfold decimal_div.
  destruct (Z.eqb_spec total 0) as [H0|_]; [lia | reflexivity].
Qed.


(** X7. When every parcel has a cultivated area between 0 and its total
    area, the utilisation rate lies between 0 and 100, the cultivated land
    is at most the total land and the uncultivated land is not
    negative. *)
Theorem utilization_rate_within_bounds (db : store) :
  Forall (fun p => 0 <= LandParcel.cultivated_area p
                   <= LandParcel.total_area p) (land_parcels db) ->
  let u := Utils.calculate_land_utilization_efficiency db in
  (0 <= Utils.utilization_rate u <= 100)%Q
  /\ 0 <= Utils.cultivated_land u <= Utils.total_land u
  /\ 0 <= Utils.uncultivated_land u.
Proof.
  intros Hall. cbv zeta.
  unfold Utils.calculate_land_utilization_efficiency.
  rewrite utilization_try_value.
  pose proof (sum_bounds _ Hall) as Hb. simpl.
  split; [|lia].
  destruct (sumZ (map LandParcel.total_area (land_parcels db)))
    as [|t|t] eqn:Ht; simpl.
  - split; unfold Qle; simpl; lia.
  - unfold dec_value, Qle, Qdiv, Qmult, Qinv. simpl. split; nia.
  - split; unfold Qle; simpl; lia.
Qed.

Lemma utilization_rate_within_bounds_witness :
  (0 <= Utils.utilization_rate
          (Utils.calculate_land_utilization_efficiency Sample.farm)
   <= 100)%Q.
Proof.
  apply (utilization_rate_within_bounds Sample.farm).
  repeat constructor; simpl; lia.
Defined.

(** ** The statistics API, further *)

Section GroupKeys.
Context {A K : Type} (eqb : K -> K -> bool) (key : A -> K).

Lemma fold_add_keys_incl (rows : list A) (groups : list (K * list A))
      (k : K) :
  In k (map fst (fold_left (fun gs x => ORM.add_to_group eqb key x gs)
                           rows groups)) ->
  In k (map fst groups) \/ In k (map key rows).
Proof.
  revert groups.
  induction rows as [|x rows IH]; intros groups Hin; simpl in *;
    [left; exact Hin|].
  apply IH in Hin. destruct Hin as [Hin|Hin]; [|right; right; exact Hin].
  rewrite add_to_group_keys in Hin.
  destruct (existsb _ _); [left; exact Hin|].
  apply in_app_or in Hin. destruct Hin as [Hin|[<-|[]]];
    [left; exact Hin | right; left; reflexivity].
Qed.

Lemma group_by_keys_incl (rows : list A) (k : K) :
  In k (map fst (ORM.group_by eqb key rows)) -> In k (map key rows).
Proof.
  intros Hin. apply fold_add_keys_incl in Hin.
  destruct Hin as [[]|Hin]. exact Hin.
Qed.

End GroupKeys.

Lemma NoDup_constant {A} (l : list A) (a : A) :
  NoDup l -> (forall x, In x l -> x = a) -> (List.length l <= 1)%nat.
Proof.
  intros Hnd Hall. destruct l as [|x [|y l]]; simpl; try lia.
  exfalso. inversion Hnd as [|? ? Hnotin _]; subst. apply Hnotin.
  rewrite (Hall x), (Hall y); simpl; auto.
Qed.

(** X9. A request to [api_land_stats] whose [region] parameter is ASCII
    text (of at most 4300 characters) that is not empty and not a number
    is answered with status 500
    and the JSON object of an error, whose message is that of the
    conversion and shows the text as [repr] prints it; the store and the
    messages are left as they were. *)
Theorem api_land_stats_rejects_malformed_region
        (req : Http.request) (w : Http.world) (r : string) :
  Http.user_is_authenticated req = true ->
  Http.GET_get req "region" = Some r ->
  r <> "" ->
  PyInt.is_ascii r = true ->
  (String.length r <= PyInt.max_str_digits)%nat ->
  PyInt.int r = None ->
  Views.api_land_stats req w
  = (Views.HttpResponse 500 "application/json" None
       (Views.Json
          (Http.JObject
             [("status", Http.JString "error");
              ("message",
               Http.JString ("Field 'id' expected a number but got "
                             ++ PyRepr.repr r ++ "."))])), w).
Proof.
  intros Hauth Hget Hne _ _ Hint.
  unfold Views.api_land_stats, Views.login_required,
    Views.api_land_stats_view, Views.api_land_stats_try,
    Views.apply_filters, Views.truthy_str, Views.filter_region,
    Lookup.id_value.
  rewrite Hauth, Hget, Hint.
  apply String.eqb_neq in Hne. rewrite Hne. reflexivity.
Qed.

Lemma api_land_stats_rejects_malformed_region_witness :
  Views.api_land_stats (Sample.logged_in [("region", "north")])
    (Sample.world_of Sample.farm)
  = (Views.HttpResponse 500 "application/json" None
       (Views.Json
          (Http.JObject
             [("status", Http.JString "error");
              ("message",
               Http.JString
                 "Field 'id' expected a number but got 'north'.")])),
     Sample.world_of Sample.farm).
Proof.
  apply (api_land_stats_rejects_malformed_region
           (Sample.logged_in [("region", "north")])
           (Sample.world_of Sample.farm) "north" eq_refl eq_refl);
    [discriminate | reflexivity | apply Nat.leb_le; reflexivity
     | reflexivity].
Defined.

(** X8. A [region] parameter that is a number beyond the 64 bits of a key
    is no filter either: the query that binds it raises [OverflowError]
    when it runs, within the [try], and [api_land_stats] answers with
    status 500 and the JSON object of an error; the store and the messages
    are left as they were. *)
Theorem api_land_stats_rejects_unstorable_region
        (req : Http.request) (w : Http.world) (r : string) (n : Z) :
  Http.user_is_authenticated req = true ->
  Http.GET_get req "region" = Some r ->
  PyInt.int r = Some n ->
  (n < - 2 ^ 63 \/ 2 ^ 63 <= n) ->
  exists message,
    Views.api_land_stats_try (Http.db w) req = inl (OverflowError message)
    /\ Views.api_land_stats req w
       = (Views.HttpResponse 500 "application/json" None
            (Views.Json
               (Http.JObject
                  [("status", Http.JString "error");
                   ("message", Http.JString message)])), w).
Proof.
  intros Hauth Hget Hint Hrange.
  assert (r <> "") as Hne by (intros ->; discriminate Hint).
  assert (Lookup.sqlite_integer n = false) as Hout.
  { unfold Lookup.sqlite_integer. apply andb_false_iff.
    destruct Hrange; [left; apply Z.leb_gt | right; apply Z.leb_gt]; lia. }
  unfold Views.api_land_stats, Views.login_required,
    Views.api_land_stats_view, Views.api_land_stats_try,
    Views.apply_filters, Views.truthy_str, Views.filter_region,
    Lookup.id_value.
  rewrite Hauth, Hget, Hint, Hout.
  apply String.eqb_neq in Hne. rewrite Hne.
  eexists. split; reflexivity.
Qed.

Lemma api_land_stats_rejects_unstorable_region_witness :
  exists message,
    Views.api_land_stats_try empty_store
      (Sample.logged_in [("region", "99999999999999999999")])
    = inl (OverflowError message)
    /\ Views.api_land_stats
         (Sample.logged_in [("region", "99999999999999999999")])
         (Sample.world_of empty_store)
       = (Views.HttpResponse 500 "application/json" None
            (Views.Json
               (Http.JObject
                  [("status", Http.JString "error");
                   ("message", Http.JString message)])),
          Sample.world_of empty_store).
Proof.
  apply (api_land_stats_rejects_unstorable_region
           (Sample.logged_in [("region", "99999999999999999999")])
           (Sample.world_of empty_store) "99999999999999999999"
           99999999999999999999 eq_refl eq_refl eq_refl).
  right. vm_compute. discriminate.
Defined.



(** X11. When the request names a soil type, the soil distribution of
    [api_land_stats] has at most one row, and a row it has is the row of
    that soil type. *)
Theorem soil_filter_leaves_one_row
        (db : store) (req : Http.request) (sc : Scope.t) (soil : string) :
  Scope.of_request req = Some sc ->
  Scope.soil_type sc = Some soil ->
  exists s,
    Views.api_land_stats_try db req = inr s
    /\ (List.length (Views.soil_distribution s) <= 1)%nat
    /\ Forall (fun r => SoilRow.soil_type r = soil)
              (Views.soil_distribution s).
Proof.
  intros Hsc Hsoil.
  destruct (apply_filters_scope db req sc Hsc) as (q & Hq & Hparcels).
  unfold Views.api_land_stats_try. rewrite Hq. simpl.
  eexists. split; [reflexivity|]. simpl. rewrite Hparcels.
  assert (forall k,
             In k (map SoilRow.soil_type
                       (Queries.soil_distribution (Scope.parcels db sc))) ->
             k = soil) as Hkeys.
  { intros k Hin. unfold Queries.soil_distribution in Hin.
    rewrite map_map in Hin. simpl in Hin.
    apply (group_by_keys_incl String.eqb LandParcel.soil_type) in Hin.
    apply in_map_iff in Hin. destruct Hin as (p & <- & Hp).
    unfold Scope.parcels in Hp. apply filter_In in Hp.
    destruct Hp as [_ Hp]. unfold Scope.contains in Hp.
    rewrite Hsoil in Hp. apply andb_true_iff in Hp.
    apply String.eqb_eq. apply Hp. }
  split.
  - rewrite <- (length_map SoilRow.soil_type).
    apply (NoDup_constant _ soil);
      [apply soil_distribution_distinct | exact Hkeys].
  - apply Forall_forall. intros r Hr. apply Hkeys.
    apply in_map. exact Hr.
Qed.

Lemma soil_filter_leaves_one_row_witness :
  exists s,
    Views.api_land_stats_try Sample.farm
      (Sample.logged_in [("soil_type", "clay")]) = inr s
    /\ (List.length (Views.soil_distribution s) <= 1)%nat
    /\ Forall (fun r => SoilRow.soil_type r = "clay")
              (Views.soil_distribution s).
Proof.
  exact (soil_filter_leaves_one_row
           Sample.farm (Sample.logged_in [("soil_type", "clay")])
           {| Scope.region := None; Scope.soil_type := Some "clay" |}
           "clay" eq_refl eq_refl).
Defined.

(** ** The region and crop pages, further *)


(** X12. [region_analysis] shows the statistics of no region.  For every
    region that exists, whatever parcels it has, the [aggregate] call
    raises [FieldError], because its member [total_area] is named again
    by [Avg('total_area')], and the page is rendered with the empty
    [region_stats] and with no crop, soil or irrigation row.  For a key
    of the database that is the key of no region, Django answers with its
    own page of status 404. *)
Theorem region_analysis_shows_the_fallback
        (env : environment) (region_id : Z)
        (req : Http.request) (w : Http.world) :
  Http.user_is_authenticated req = true ->
  (forall region,
      ORM.get_region (Http.db w) region_id = Some region ->
      (exists message,
          Views.region_analysis_try env (Http.db w) region
          = inl (FieldError message))
      /\ Views.region_analysis env region_id req w
         = (Views.render "land_analysis/region_analysis.html"
              (Views.RegionAnalysisContext region None [] [] []) 200, w))
  /\ (Lookup.sqlite_integer region_id = true ->
      ORM.get_region (Http.db w) region_id = None ->
      Views.region_analysis env region_id req w
      = (Views.HttpResponseNotFound, w)).
Proof.
  intros Hauth.
  unfold Views.region_analysis, Views.login_required,
    Views.region_analysis_view.
  rewrite Hauth. split.
  - intros region Hregion. rewrite Hregion, region_analysis_try_raises.
    split; [eexists; reflexivity | reflexivity].
  - intros _ Hnone. rewrite Hnone. reflexivity.
Qed.

Lemma region_analysis_shows_the_fallback_witness :
  Views.region_analysis (Sample.environment_with true) 1
    (Sample.logged_in []) (Sample.world_of Sample.farm)
  = (Views.render "land_analysis/region_analysis.html"
       (Views.RegionAnalysisContext Sample.north None [] [] []) 200,
     Sample.world_of Sample.farm)
  /\ Views.region_analysis (Sample.environment_with true) 7
       (Sample.logged_in []) (Sample.world_of Sample.farm)
     = (Views.HttpResponseNotFound, Sample.world_of Sample.farm).
Proof.
  split.
  - apply (region_analysis_shows_the_fallback
             (Sample.environment_with true) 1 (Sample.logged_in [])
             (Sample.world_of Sample.farm) eq_refl).
    reflexivity.
  - apply (region_analysis_shows_the_fallback
             (Sample.environment_with true) 7 (Sample.logged_in [])
             (Sample.world_of Sample.farm) eq_refl);
      reflexivity.
Defined.




(** X14. For a crop without cropping patterns, [crop_analysis] computes
    statistics that are all null and empty regional, seasonal and yearly
    breakdowns, whatever the database does on a division by zero. *)
Theorem crop_without_patterns
        (env : environment) (crop_id : Z) (crop : Crop.t)
        (req : Http.request) (w : Http.world) :
  Http.user_is_authenticated req = true ->
  ORM.get_crop (Http.db w) crop_id = Some crop ->
  Views.patterns_of_crop (Http.db w) crop = [] ->
  Views.crop_analysis env crop_id req w
  = (Views.render "land_analysis/crop_analysis.html"
       (Views.CropAnalysisContext crop
          (Some {| Stats.cs_total_area := None;
                   Stats.total_yield := None;
                   Stats.avg_yield_per_hectare := None;
                   Stats.total_revenue := None;
                   Stats.avg_revenue_per_hectare := None |})
          [] [] []) 200, w).
Proof.
  intros Hauth Hcrop Hnone.
  unfold Views.crop_analysis, Views.login_required,
    Views.crop_analysis_view, Views.crop_analysis_try.
  rewrite Hauth, Hcrop, Hnone. reflexivity.
Qed.

Lemma crop_without_patterns_witness :
  Views.crop_analysis (Sample.environment_with true) 1
    (Sample.logged_in []) (Sample.world_of Sample.farm)
  = (Views.render "land_analysis/crop_analysis.html"
       (Views.CropAnalysisContext Sample.wheat
          (Some {| Stats.cs_total_area := None;
                   Stats.total_yield := None;
                   Stats.avg_yield_per_hectare := None;
                   Stats.total_revenue := None;
                   Stats.avg_revenue_per_hectare := None |})
          [] [] []) 200, Sample.world_of Sample.farm).
Proof.
  apply (crop_without_patterns (Sample.environment_with true) 1
           Sample.wheat (Sample.logged_in [])
           (Sample.world_of Sample.farm) eq_refl eq_refl eq_refl).
Defined.

(** ** Exports, further *)

Lemma land_parcel_records_shape (db : store) :
  List.length (Views.land_parcel_records db)
  = List.length (filter (Integrity.parcel_linked db) (land_parcels db))
  /\ Forall (fun r => map fst r
                      = ["parcel_id"; "total_area"; "cultivated_area";
                         "soil_type"; "land_holder__name";
                         "land_holder__region__name"])
            (Views.land_parcel_records db).
Proof.
  unfold Views.land_parcel_records, Integrity.parcel_linked,
    ORM.parcel_region.
  induction (land_parcels db) as [|p ps [IHlen IHall]]; simpl;
    [split; [reflexivity | constructor]|].
  destruct (ORM.get_land_holder db (LandParcel.land_holder_id p)) as [h|];
    [destruct (ORM.get_region db (LandHolder.region_id h)) as [r|]|];
    simpl; split; try assumption; try (f_equal; assumption).
  constructor; [reflexivity | assumption].
Qed.

(** X15. When at least one parcel has its holder and region, the CSV
    export of [land_parcels] is a file whose first line names the six
    columns and which has one further line of six fields for each such
    parcel; parcels without holder or region are left out.  The store and
    the messages are left as they were. *)
Theorem csv_export_of_parcels
        (req : Http.request) (w : Http.world) :
  Http.user_is_authenticated req = true ->
  Http.GET_get req "format" = Some "csv" ->
  filter (Integrity.parcel_linked (Http.db w)) (land_parcels (Http.db w))
  <> [] ->
  exists lines,
    Views.export_data "land_parcels" req w
    = (Views.HttpResponse 200 "text/csv" (Some "land_parcels.csv")
         (Views.Csv
            (map Http.lit
                 ["parcel_id"; "total_area"; "cultivated_area";
                  "soil_type"; "land_holder__name";
                  "land_holder__region__name"] :: lines)), w)
    /\ List.length lines
       = List.length (filter (Integrity.parcel_linked (Http.db w))
                             (land_parcels (Http.db w)))
    /\ Forall (fun l => List.length l = 6%nat) lines.
Proof.
  intros Hauth Hformat Hsome.
  destruct (land_parcel_records_shape (Http.db w)) as [Hlen Hcols].
  unfold Views.export_data, Views.login_required, Views.export_data_view,
    Views.export_records, Http.GET_get_default.
  rewrite Hauth, Hformat. simpl.
  unfold Http.to_csv, Http.DataFrame_of_records. simpl.
  destruct (Views.land_parcel_records (Http.db w)) as [|r rs] eqn:Hrecs.
  - simpl in Hlen.
    destruct (filter _ (land_parcels (Http.db w)));
      [congruence | discriminate].
  - inversion Hcols as [|? ? Hr Hrs]; subst. rewrite Hr.
    eexists. split; [reflexivity|]. split.
    + rewrite length_map. exact Hlen.
    + apply Forall_map. eapply Forall_impl; [|exact Hcols].
      intros r' Hr'. rewrite length_map, <- (length_map fst), Hr'.
      reflexivity.
Qed.

Lemma csv_export_of_parcels_witness :
  exists lines,
    Views.export_data "land_parcels" (Sample.logged_in [("format", "csv")])
      (Sample.world_of Sample.farm)
    = (Views.HttpResponse 200 "text/csv" (Some "land_parcels.csv")
         (Views.Csv
            (map Http.lit
                 ["parcel_id"; "total_area"; "cultivated_area";
                  "soil_type"; "land_holder__name";
                  "land_holder__region__name"] :: lines)),
       Sample.world_of Sample.farm)
    /\ List.length lines = 2%nat
    /\ Forall (fun l => List.length l = 6%nat) lines.
Proof.
  apply (csv_export_of_parcels (Sample.logged_in [("format", "csv")])
           (Sample.world_of Sample.farm) eq_refl eq_refl).
  discriminate.
Defined.

(** X16. Whatever [format] a request gives other than [csv] and [excel],
    and also when it gives none, the export of [land_parcels] is the JSON
    attachment [land_parcels.json], an array with one object per parcel
    that has its holder and region. *)
Theorem export_defaults_to_json
        (req : Http.request) (w : Http.world) :
  Http.user_is_authenticated req = true ->
  Http.GET_get req "format" <> Some "csv" ->
  Http.GET_get req "format" <> Some "excel" ->
  exists objects,
    Views.export_data "land_parcels" req w
    = (Views.HttpResponse 200 "application/json"
         (Some "land_parcels.json")
         (Views.Json (Http.JArray objects)), w)
    /\ List.length objects
       = List.length (filter (Integrity.parcel_linked (Http.db w))
                             (land_parcels (Http.db w))).
Proof.
  intros Hauth Hcsv Hexcel.
  destruct (land_parcel_records_shape (Http.db w)) as [Hlen _].
  unfold Views.export_data, Views.login_required, Views.export_data_view,
    Views.export_records, Http.GET_get_default.
  rewrite Hauth. simpl.
  assert (String.eqb match Http.GET_get req "format" with
                     | Some v => v
                     | None => "json"
                     end "csv" = false) as Hc.
  { apply String.eqb_neq.
    destruct (Http.GET_get req "format"); congruence. }
  assert (String.eqb match Http.GET_get req "format" with
                     | Some v => v
                     | None => "json"
                     end "excel" = false) as He.
  { apply String.eqb_neq.
    destruct (Http.GET_get req "format"); congruence. }
  rewrite Hc, He.
  eexists. split; [reflexivity|].
  rewrite length_map. exact Hlen.
Qed.

Lemma export_defaults_to_json_witness :
  exists objects,
    Views.export_data "land_parcels" (Sample.logged_in [("format", "xml")])
      (Sample.world_of Sample.farm)
    = (Views.HttpResponse 200 "application/json"
         (Some "land_parcels.json")
         (Views.Json (Http.JArray objects)), Sample.world_of Sample.farm)
    /\ List.length objects = 2%nat.
Proof.
  apply (export_defaults_to_json (Sample.logged_in [("format", "xml")])
           (Sample.world_of Sample.farm) eq_refl); discriminate.
Defined.

(** ** Document reports, further *)

Lemma summary_appends (db : store) (story : list Http.flowable) :
  Views._generate_summary_report db story
  = story ++ Views._generate_summary_report db [].
Proof. reflexivity. Qed.

Lemma land_analysis_appends (db : store) (story : list Http.flowable) :
  Views._generate_land_analysis_report db story
  = story ++ Views._generate_land_analysis_report db [].
Proof.
  unfold Views._generate_land_analysis_report.
  destruct (Stats.land_holding_analysis db); simpl;
    rewrite <- !app_assoc; reflexivity.
Qed.

Lemma crop_analysis_appends (db : store) (story : list Http.flowable) :
  Views._generate_crop_analysis_report db story
  = story ++ Views._generate_crop_analysis_report db [].
Proof.
  unfold Views._generate_crop_analysis_report.
  destruct (ORM.limit 10 _); simpl; rewrite <- !app_assoc; reflexivity.
Qed.

Lemma irrigation_analysis_appends (db : store)
      (story : list Http.flowable) :
  Views._generate_irrigation_analysis_report db story
  = story ++ Views._generate_irrigation_analysis_report db [].
Proof.
  unfold Views._generate_irrigation_analysis_report.
  destruct (Queries.irrigation_distribution _); simpl;
    rewrite <- !app_assoc; reflexivity.
Qed.

(** X17. The content of every report type is appended to the story it is
    given and leaves that story in place, and the comprehensive report is
    the concatenation of the summary, land, crop and irrigation reports
    followed by the heading [Recommendations] and the five fixed
    recommendations. *)
Theorem comprehensive_report_concatenates_sections
        (db : store) (story : list Http.flowable) :
  (forall report_type,
      Views.report_content db report_type story
      = story ++ Views.report_content db report_type [])
  /\ Views.report_content db "comprehensive" story
     = story
       ++ Views.report_content db "summary" []
       ++ Views.report_content db "land_analysis" []
       ++ Views.report_content db "crop_analysis" []
       ++ Views.report_content db "irrigation_analysis" []
       ++ Http.Paragraph (Http.lit "Recommendations") Http.heading_style
          :: map (fun rec => Http.Paragraph (Http.lit rec)
                                            Http.normal_style)
                 Views.recommendations.
Proof.
  assert (forall s,
             Views._generate_comprehensive_report db s
             = s ++ Views._generate_summary_report db []
                 ++ Views._generate_land_analysis_report db []
                 ++ Views._generate_crop_analysis_report db []
                 ++ Views._generate_irrigation_analysis_report db []
                 ++ Http.Paragraph (Http.lit "Recommendations")
                      Http.heading_style
                    :: map (fun rec => Http.Paragraph (Http.lit rec)
                                                      Http.normal_style)
                           Views.recommendations) as Hall.
  { intros s. unfold Views._generate_comprehensive_report. cbv zeta.
    rewrite irrigation_analysis_appends, crop_analysis_appends,
      land_analysis_appends, summary_appends.
    rewrite <- !app_assoc. reflexivity. }
  split.
  - intros report_type. unfold Views.report_content.
    repeat match goal with
           | |- context [String.eqb report_type ?s] =>
               destruct (String.eqb report_type s)
           end.
    + apply summary_appends.
    + apply land_analysis_appends.
    + apply crop_analysis_appends.
    + apply irrigation_analysis_appends.
    + rewrite (Hall story), (Hall []). reflexivity.
    + reflexivity.
  - unfold Views.report_content. simpl String.eqb. cbv iota.
    apply Hall.
Qed.

(** X18. When ReportLab is available and raises while the report is built,
    [download_analysis_report] sends no document: it queues the message
    [Error generating report: ] followed by the text of the exception and
    redirects to the analysis reports page, leaving the store as it was. *)
Theorem report_failure_redirects
        (env : environment) (report_type : string) (e : exception)
        (req : Http.request) (w : Http.world) :
  Http.user_is_authenticated req = true ->
  REPORTLAB_AVAILABLE env = true ->
  doc_build_error env
    (Views.report_content (Http.db w) report_type
       (Views.report_heading env report_type)) = Some e ->
  Views.download_analysis_report env report_type req w
  = (Views.Redirect "analysis_reports" None,
     {| Http.db := Http.db w;
        Http.messages :=
          Http.messages w
          ++ [(Http.ERROR, [Http.Lit "Error generating report: ";
                            Http.Lit (str_exception e)])] |}).
Proof.
  intros Hauth Hrl Hbuild.
  unfold Views.download_analysis_report, Views.login_required,
    Views.download_analysis_report_view,
    Views.download_analysis_report_try, Views.build_pdf.
  rewrite Hauth, Hrl, Hbuild. reflexivity.
Qed.

Lemma report_failure_redirects_witness :
  fst (Views.download_analysis_report
         {| REPORTLAB_AVAILABLE := true; now_strftime := fun _ => "";
            doc_build_error :=
              fun _ => Some (LayoutError "Flowable too large");
            division_by_zero_raises := false |}
         "summary" (Sample.logged_in []) (Sample.world_of Sample.farm))
  = Views.Redirect "analysis_reports" None.
Proof.
  rewrite (report_failure_redirects
             {| REPORTLAB_AVAILABLE := true; now_strftime := fun _ => "";
                doc_build_error :=
                  fun _ => Some (LayoutError "Flowable too large");
                division_by_zero_raises := false |}
             "summary" (LayoutError "Flowable too large")
             (Sample.logged_in []) (Sample.world_of Sample.farm)
             eq_refl eq_refl eq_refl).
  reflexivity.
Defined.

(** X19. A request for the report of a parcel that does not exist is not
    answered with a not-found page: with or without ReportLab, the
    [Http404] is caught, the message [Error generating parcel report: No
    LandParcel matches the given query.] is queued and the user is sent
    to the detail page of that parcel id. *)
Theorem missing_parcel_report_redirects
        (env : environment) (pk : Z) (req : Http.request) (w : Http.world) :
  Http.user_is_authenticated req = true ->
  ORM.get_land_parcel (Http.db w) pk = None ->
  Views.download_parcel_report env pk req w
  = (Views.Redirect "land_parcel_detail" (Some pk),
     {| Http.db := Http.db w;
        Http.messages :=
          Http.messages w
          ++ [(Http.ERROR,
               [Http.Lit "Error generating parcel report: ";
                Http.Lit "No LandParcel matches the given query."])] |}).
Proof.
  intros Hauth Hnone.
  unfold Views.download_parcel_report, Views.login_required,
    Views.download_parcel_report_view, Views.download_parcel_report_try,
    Views.get_parcel_or_404.
  rewrite Hauth, Hnone. reflexivity.
Qed.

Lemma missing_parcel_report_redirects_witness :
  fst (Views.download_parcel_report (Sample.environment_with true) 77
         (Sample.logged_in []) (Sample.world_of Sample.farm))
  = Views.Redirect "land_parcel_detail" (Some 77).
Proof.
  rewrite (missing_parcel_report_redirects
             (Sample.environment_with true) 77 (Sample.logged_in [])
             (Sample.world_of Sample.farm) eq_refl eq_refl).
  reflexivity.
Defined.



(** ** The pages *)

(** X21. [home] never shows the store: its [try] always ends in the
    exception that [dates] raises for the integer field [year], so for
    every store the page is rendered with the fallback context, all counts
    0 and all lists empty. *)
Theorem home_shows_the_fallback (req : Http.request) (w : Http.world) :
  (exists e, Pages.home_try (Http.db w) = inl e)
  /\ Pages.home req w
     = (Pages.Page "land_analysis/home.html" 200
          (Pages.Home
             {| HomeContext.total_land_holders := 0;
                HomeContext.total_parcels := 0;
                HomeContext.total_cultivated_area := 0;
                HomeContext.recent_parcels := [];
                HomeContext.regions := [];
                HomeContext.soil_types := [];
                HomeContext.crops := [];
                HomeContext.years := [] |}), w).
Proof.
  split; [eexists; reflexivity | reflexivity].
Qed.

(** X22. [dashboard] never shows the store either: after its queries and
    after the charts are generated, its [try] ends in the same exception
    of [dates], so a logged-in user is shown zero statistics, no region,
    irrigation or crop rows and no chart, whatever the store holds. *)
Theorem dashboard_shows_the_fallback
        (analyses : list LandAnalysis.t)
        (req : Http.request) (w : Http.world) :
  Http.user_is_authenticated req = true ->
  (exists e, Pages.dashboard_try (Http.db w) analyses = inl e)
  /\ Pages.dashboard analyses req w
     = (Pages.Page "land_analysis/dashboard.html" 200
          (Pages.Dashboard
             {| DashboardContext.dashboard_stats :=
                  {| DashboardContext.total_land_holders := 0;
                     DashboardContext.total_parcels := 0;
                     DashboardContext.total_cultivated_area := 0;
                     DashboardContext.avg_productivity := 0%Q |};
                DashboardContext.region_data := [];
                DashboardContext.irrigation_data := [];
                DashboardContext.crop_data := [];
                DashboardContext.charts := [];
                DashboardContext.regions := [];
                DashboardContext.soil_types := [];
                DashboardContext.crops := [];
                DashboardContext.years := [] |}), w).
Proof.
  intros Hauth.
  split; [eexists; reflexivity|].
  unfold Pages.dashboard, Pages.login_required, Pages.dashboard_view.
  rewrite Hauth. reflexivity.
Qed.

Lemma dashboard_shows_the_fallback_witness :
  exists e, Pages.dashboard_try Sample.farm [] = inl e.
Proof.
  apply (dashboard_shows_the_fallback [] (Sample.logged_in [])
           (Sample.world_of Sample.farm) eq_refl).
Defined.

Lemma cultivation_percentage_value (parcel : LandParcel.t) :
  Pages.cultivation_percentage parcel
  = inr (if 0 <? LandParcel.total_area parcel
         then (dec_value (LandParcel.cultivated_area parcel)
               / dec_value (LandParcel.total_area parcel) * 100)%Q
         else 0%Q).
Proof.
  unfold Pages.cultivation_percentage, decimal_div.
  destruct (Z.ltb_spec 0 (LandParcel.total_area parcel)) as [Hpos|_];
    [|reflexivity].
  destruct (Z.eqb_spec (LandParcel.total_area parcel) 0); [lia|].
  reflexivity.
Qed.

(** X23. [land_parcel_detail] does not end in a server error for a key
    of the database: when it is the key of no parcel, the [Http404] of
    [get_object_or_404] is not the [DoesNotExist] that the view handles,
    it leaves the view, and a logged-in user gets the page of status 404
    of Django itself, not the template of the application; for a parcel
    that exists the user gets the detail page with status 200, whose
    cropping history holds only cropping patterns of that parcel, in
    ascending order of the year, and whose cultivation percentage is 0
    when the total area is not positive and lies between 0 and 100 when
    the cultivated area lies between 0 and the total area. *)
Theorem land_parcel_detail_answers
        (analyses : list LandAnalysis.t) (pk : Z)
        (req : Http.request) (w : Http.world) :
  Http.user_is_authenticated req = true ->
  Lookup.sqlite_integer pk = true ->
  match ORM.get_land_parcel (Http.db w) pk with
  | None =>
      Pages.land_parcel_detail analyses pk req w
      = (Pages.Answered Pages.PageNotFound, w)
  | Some parcel =>
      exists c,
        Pages.land_parcel_detail analyses pk req w
        = (Pages.Answered
             (Pages.Page "land_analysis/land_parcel_detail.html" 200
                (Pages.ParcelDetail c)), w)
        /\ ParcelDetailContext.parcel c = parcel
        /\ Forall (fun h => CroppingPattern.land_parcel_id h
                            = LandParcel.id parcel)
                  (ParcelDetailContext.cropping_history c)
        /\ Sorted (fun a b => CroppingPattern.year a
                              <= CroppingPattern.year b)
                  (ParcelDetailContext.cropping_history c)
        /\ (LandParcel.total_area parcel <= 0 ->
            ParcelDetailContext.cultivation_percentage c = 0%Q)
        /\ (0 <= LandParcel.cultivated_area parcel
            <= LandParcel.total_area parcel ->
            (0 <= ParcelDetailContext.cultivation_percentage c <= 100)%Q)
  end.
Proof.
  intros Hauth _.
  unfold Pages.land_parcel_detail, Pages.land_parcel_detail_view.
  rewrite Hauth.
  destruct (ORM.get_land_parcel (Http.db w) pk) as [parcel|];
    [|reflexivity].
  unfold Pages.land_parcel_detail_try.
  rewrite cultivation_percentage_value. simpl bind. cbv iota.
  eexists. split; [reflexivity|]. simpl.
  split; [reflexivity|]. split; [|split; [|split]].
  - apply Forall_forall. intros h Hin.
    apply (Permutation_in _ (order_by_perm Pages.year_season_le _)) in Hin.
    apply filter_In in Hin. apply Z.eqb_eq. apply Hin.
  - eapply Sorted_ind with (P := fun l =>
      Sorted (fun a b => CroppingPattern.year a <= CroppingPattern.year b)
             l);
      [constructor | | apply (order_by_sorted Pages.year_season_le)].
    + intros a l _ IH Hhd. constructor; [exact IH|].
      destruct Hhd as [|b l' Hle]; constructor.
      unfold Pages.year_season_le in Hle.
      apply orb_true_iff in Hle. destruct Hle as [Hlt|Heq].
      * apply Z.ltb_lt in Hlt. lia.
      * apply andb_true_iff in Heq. destruct Heq as [Heq _].
        apply Z.eqb_eq in Heq. lia.
    + intros a b. unfold Pages.year_season_le.
      destruct (Z.ltb_spec (CroppingPattern.year a)
                           (CroppingPattern.year b)); [left; reflexivity|].
      destruct (Z.ltb_spec (CroppingPattern.year b)
                           (CroppingPattern.year a)); [right; reflexivity|].
      assert (CroppingPattern.year a = CroppingPattern.year b) as ->
          by lia.
      rewrite Z.eqb_refl. simpl.
      unfold String.leb.
      rewrite (String.compare_antisym (CroppingPattern.season b)
                                      (CroppingPattern.season a)).
      destruct (String.compare (CroppingPattern.season a)
                               (CroppingPattern.season b)); simpl; auto.
  - intros Hle.
    destruct (Z.ltb_spec 0 (LandParcel.total_area parcel));
      [lia | reflexivity].
  - intros [Hlo Hhi].
    destruct (LandParcel.total_area parcel) as [|t|t] eqn:Ht; simpl.
    + split; unfold Qle; simpl; lia.
    + unfold dec_value, Qle, Qdiv, Qmult, Qinv. simpl. split; nia.
    + split; unfold Qle; simpl; lia.
Qed.

Lemma land_parcel_detail_answers_witness :
  Pages.land_parcel_detail [] 77 (Sample.logged_in [])
    (Sample.world_of Sample.farm)
  = (Pages.Answered Pages.PageNotFound, Sample.world_of Sample.farm).
Proof.
  exact (land_parcel_detail_answers [] 77 (Sample.logged_in [])
           (Sample.world_of Sample.farm) eq_refl eq_refl).
Defined.




(** X25. When the [region] parameter is ASCII text (of at most 4300
    characters) that is not empty and is not a number, or is a number
    beyond the 64 bits of a key, the
    parcel list does not fail: the conversion or the first query raises
    within the [try], and the page is rendered with no parcel, no region
    and zero totals, whatever the store holds. *)
Theorem parcel_list_with_malformed_region
        (req : Http.request) (w : Http.world) (r : string) :
  Http.user_is_authenticated req = true ->
  Http.GET_get req "region" = Some r ->
  r <> "" ->
  PyInt.is_ascii r = true ->
  (String.length r <= PyInt.max_str_digits)%nat ->
  (PyInt.int r = None
   \/ exists n, PyInt.int r = Some n /\ (n < - 2 ^ 63 \/ 2 ^ 63 <= n)) ->
  Pages.land_parcel_list req w
  = (Pages.Page "land_analysis/land_parcel_list.html" 200
       (Pages.ParcelList
          {| ParcelListContext.parcels := [];
             ParcelListContext.regions := [];
             ParcelListContext.soil_types := LandParcel.SOIL_TYPES;
             ParcelListContext.total_area := 0;
             ParcelListContext.cultivated_area := 0;
             ParcelListContext.unique_crops := 0 |}), w).
Proof.
  intros Hauth Hget Hne _ _ Hint.
  unfold Pages.land_parcel_list, Pages.login_required,
    Pages.land_parcel_list_view, Pages.land_parcel_list_try,
    Pages.listed_parcels, Views.truthy_str, Lookup.id_value.
  rewrite Hauth, Hget.
  apply String.eqb_neq in Hne. rewrite Hne.
  destruct Hint as [Hint | (n & Hint & Hrange)]; rewrite Hint;
    [reflexivity|].
  assert (Lookup.sqlite_integer n = false) as Hout.
  { unfold Lookup.sqlite_integer. apply andb_false_iff.
    destruct Hrange; [left; apply Z.leb_gt | right; apply Z.leb_gt]; lia. }
  rewrite Hout. reflexivity.
Qed.

Lemma parcel_list_with_malformed_region_witness :
  Pages.land_parcel_list (Sample.logged_in [("region", "1.5")])
    (Sample.world_of Sample.farm)
  = (Pages.Page "land_analysis/land_parcel_list.html" 200
       (Pages.ParcelList
          {| ParcelListContext.parcels := [];
             ParcelListContext.regions := [];
             ParcelListContext.soil_types := LandParcel.SOIL_TYPES;
             ParcelListContext.total_area := 0;
             ParcelListContext.cultivated_area := 0;
             ParcelListContext.unique_crops := 0 |}),
     Sample.world_of Sample.farm).
Proof.
  apply (parcel_list_with_malformed_region
           (Sample.logged_in [("region", "1.5")])
           (Sample.world_of Sample.farm) "1.5" eq_refl eq_refl);
    [discriminate | reflexivity | apply Nat.leb_le; reflexivity
     | left; reflexivity].
Defined.

(** ** The analysis API *)

(** X26. The comprehensive answer of [api_analysis_data] is made of the
    answers for the single analysis types: it holds, in this order, the
    section of [land], of [irrigation], of [crops] and of [trends], and
    then the status.  An analysis type that is none of the five is
    answered with the status alone. *)
Theorem analysis_api_composes_sections
        (db : store)
        (r_all r_land r_irrigation r_crops r_trends r_other : Http.request) :
  Http.GET_get_default r_all "type" "comprehensive" = "comprehensive" ->
  Http.GET_get_default r_land "type" "comprehensive" = "land" ->
  Http.GET_get_default r_irrigation "type" "comprehensive" = "irrigation" ->
  Http.GET_get_default r_crops "type" "comprehensive" = "crops" ->
  Http.GET_get_default r_trends "type" "comprehensive" = "trends" ->
  Api.one_of (Http.GET_get_default r_other "type" "comprehensive")
    ["comprehensive"; "land"; "irrigation"; "crops"; "trends"] = false ->
  map fst (Api.api_analysis_data_dict db r_all)
  = ["land_analysis"; "irrigation_analysis"; "crop_analysis";
     "production_trends"; "status"]
  /\ Api.api_analysis_data_dict db r_all
     = removelast (Api.api_analysis_data_dict db r_land)
       ++ removelast (Api.api_analysis_data_dict db r_irrigation)
       ++ removelast (Api.api_analysis_data_dict db r_crops)
       ++ removelast (Api.api_analysis_data_dict db r_trends)
       ++ [("status", Http.JString "success")]
  /\ Api.api_analysis_data_dict db r_other
     = [("status", Http.JString "success")].
Proof.
  intros Hall Hland Hirr Hcrops Htrends Hother.
  unfold Api.api_analysis_data_dict.
  rewrite Hall, Hland, Hirr, Hcrops, Htrends.
  repeat split.
  unfold Api.one_of in *. simpl in Hother.
  repeat (apply orb_false_iff in Hother;
          destruct Hother as [?H Hother]).
  simpl.
  repeat match goal with
         | H : String.eqb _ _ = false |- _ => rewrite H; clear H
         end.
  reflexivity.
Qed.

Lemma analysis_api_composes_sections_witness :
  map fst (Api.api_analysis_data_dict Sample.farm (Sample.logged_in []))
  = ["land_analysis"; "irrigation_analysis"; "crop_analysis";
     "production_trends"; "status"]
  /\ Api.api_analysis_data_dict Sample.farm
       (Sample.logged_in [("type", "weather")])
     = [("status", Http.JString "success")].
Proof.
  destruct (analysis_api_composes_sections
              Sample.farm (Sample.logged_in [])
              (Sample.logged_in [("type", "land")])
              (Sample.logged_in [("type", "irrigation")])
              (Sample.logged_in [("type", "crops")])
              (Sample.logged_in [("type", "trends")])
              (Sample.logged_in [("type", "weather")])
              eq_refl eq_refl eq_refl eq_refl eq_refl eq_refl)
    as (Hkeys & _ & Hother).
  split; [exact Hkeys | exact Hother].
Defined.

(** ** The forms, further *)

(** X27. [clean_year] accepts a year exactly when it is absent, zero, or
    between 2000 and 2030, and returns it unchanged; every other year is
    rejected with the error [Year must be between 2000 and 2030.] on the
    field [year]. *)
Theorem clean_year_accepts_range_or_zero (year : option Z) :
  (CroppingPatternForm.clean_year year = inr year
   <-> (year = None \/ year = Some 0
        \/ exists y, year = Some y /\ 2000 <= y <= 2030))
  /\ (CroppingPatternForm.clean_year year = inr year
      \/ CroppingPatternForm.clean_year year
         = inl (Forms.ValidationError "year"
                  "Year must be between 2000 and 2030.")).
Proof.
  unfold CroppingPatternForm.clean_year.
  destruct year as [y|]; [|split; [split; auto | left; reflexivity]].
  destruct (Z.eqb_spec y 0) as [->|Hnz]; simpl;
    [split; [split; auto | left; reflexivity]|].
  destruct (Z.ltb_spec y 2000) as [Hlo|Hlo]; simpl.
  - split; [|right; reflexivity]. split; [discriminate|].
    intros [H|[H|(y' & H & Hr)]]; try discriminate;
      injection H as ->; [contradiction | lia].
  - destruct (Z.ltb_spec 2030 y) as [Hhi|Hhi].
    + split; [|right; reflexivity]. split; [discriminate|].
      intros [H|[H|(y' & H & Hr)]]; try discriminate;
        injection H as ->; [contradiction | lia].
    + split; [|left; reflexivity]. split; [|reflexivity].
      intros _. right; right. exists y. split; [reflexivity | lia].
Qed.

(** X28. [LandParcelForm.clean] rejects the data exactly when both areas
    are present, neither is zero and the cultivated area is greater than
    the total area; in every other case, among them a total area of zero
    with any cultivated area, it returns the data unchanged. *)
Theorem clean_rejects_exactly_larger_cultivated_area
        (cd : Forms.cleaned_data) :
  (Forms.clean cd
   = inl (Forms.ValidationError "cultivated_area"
            "Cultivated area cannot be greater than total area.")
   <-> exists total cultivated,
        Forms.total_area cd = Some total
        /\ Forms.cultivated_area cd = Some cultivated
        /\ total <> 0 /\ cultivated <> 0 /\ total < cultivated)
  /\ (Forms.clean cd = inr cd
      \/ Forms.clean cd
         = inl (Forms.ValidationError "cultivated_area"
                  "Cultivated area cannot be greater than total area.")).
Proof.
  unfold Forms.clean, Forms.truthy, Forms.gt.
  destruct (Forms.total_area cd) as [t|];
    destruct (Forms.cultivated_area cd) as [c|]; simpl;
    try (split; [split; [discriminate | intros (? & ? & ? & ? & _);
                                        discriminate]
                | left; reflexivity]).
  - destruct (Z.eqb_spec t 0) as [->|Ht]; simpl;
      [split; [split; [discriminate|]| left; reflexivity];
       intros (t' & c' & H1 & _ & Hnz & _); injection H1 as <-;
       contradiction|].
    destruct (Z.eqb_spec c 0) as [->|Hc]; simpl;
      [split; [split; [discriminate|]| left; reflexivity];
       intros (t' & c' & _ & H2 & _ & Hnz & _); injection H2 as <-;
       contradiction|].
    destruct (Z.ltb_spec t c) as [Hlt|Hle].
    + split; [|right; reflexivity]. split; [|reflexivity].
      intros _. exists t, c. repeat split; assumption.
    + split; [|left; reflexivity]. split; [discriminate|].
      intros (t' & c' & H1 & H2 & _ & _ & Hlt).
      injection H1 as <-. injection H2 as <-. lia.
  - rewrite andb_false_r.
    split; [split; [discriminate | intros (? & ? & ? & ? & _);
                                   discriminate]
           | left; reflexivity].
Qed.

(** ** What no view does *)

(** X29. A request of a user who is not logged in is redirected to the
    login page by every view that requires a login, before anything is
    read or queued: the world is returned as it was. *)
Theorem anonymous_requests_are_redirected
        (env : environment) (req : Http.request) (w : Http.world)
        (name : string) (pk : Z) (analyses : list LandAnalysis.t) :
  Http.user_is_authenticated req = false ->
  Views.api_land_stats req w = (Views.RedirectToLogin, w)
  /\ Views.region_analysis env pk req w = (Views.RedirectToLogin, w)
  /\ Views.crop_analysis env pk req w = (Views.RedirectToLogin, w)
  /\ Views.export_data name req w = (Views.RedirectToLogin, w)
  /\ Views.download_analysis_report env name req w
     = (Views.RedirectToLogin, w)
  /\ Views.download_parcel_report env pk req w
     = (Views.RedirectToLogin, w)
  /\ Api.api_analysis_data req w = (Views.RedirectToLogin, w)
  /\ Pages.dashboard analyses req w = (Pages.LoginRedirect, w)
  /\ Pages.land_parcel_list req w = (Pages.LoginRedirect, w)
  /\ Pages.land_parcel_detail analyses pk req w
     = (Pages.Answered Pages.LoginRedirect, w).
Proof.
  intros Hanon.
  unfold Views.api_land_stats, Views.region_analysis, Views.crop_analysis,
    Views.export_data, Views.download_analysis_report,
    Views.download_parcel_report, Api.api_analysis_data,
    Pages.dashboard, Pages.land_parcel_list, Pages.land_parcel_detail,
    Views.login_required, Pages.login_required.
  rewrite Hanon. repeat split.
Qed.

Lemma anonymous_requests_are_redirected_witness :
  Views.export_data "land_parcels"
    {| Http.user_is_authenticated := false;
       Http.GET := [("format", "csv")] |}
    (Sample.world_of Sample.farm)
  = (Views.RedirectToLogin, Sample.world_of Sample.farm).
Proof.
  apply (anonymous_requests_are_redirected
           (Sample.environment_with true)
           {| Http.user_is_authenticated := false;
              Http.GET := [("format", "csv")] |}
           (Sample.world_of Sample.farm) "land_parcels" 1 [] eq_refl).
Defined.

Ltac split_view :=
  repeat match goal with
         | |- context [if ?c then _ else _] => destruct c
         | |- context [match ?x with _ => _ end] => destruct x
         end;
  simpl; try reflexivity.

(** X30. No view changes the store, whatever the request and whatever the
    state of the store: the statistics, export and page views return the
    world as it was, and the two report downloads change nothing but the
    queue of messages, to which they add at most one error message. *)
Theorem views_only_read_the_store
        (env : environment) (req : Http.request) (w : Http.world)
        (name : string) (pk : Z) (analyses : list LandAnalysis.t) :
  snd (Views.api_land_stats req w) = w
  /\ snd (Views.region_analysis env pk req w) = w
  /\ snd (Views.crop_analysis env pk req w) = w
  /\ snd (Views.export_data name req w) = w
  /\ snd (Api.api_analysis_data req w) = w
  /\ snd (Pages.home req w) = w
  /\ snd (Pages.dashboard analyses req w) = w
  /\ snd (Pages.land_parcel_list req w) = w
  /\ snd (Pages.land_parcel_detail analyses pk req w) = w
  /\ (Http.db (snd (Views.download_analysis_report env name req w))
      = Http.db w
      /\ exists queued,
          Http.messages
            (snd (Views.download_analysis_report env name req w))
          = Http.messages w ++ queued
          /\ (List.length queued <= 1)%nat
          /\ Forall (fun m => fst m = Http.ERROR) queued)
  /\ (Http.db (snd (Views.download_parcel_report env pk req w))
      = Http.db w
      /\ exists queued,
          Http.messages
            (snd (Views.download_parcel_report env pk req w))
          = Http.messages w ++ queued
          /\ (List.length queued <= 1)%nat
          /\ Forall (fun m => fst m = Http.ERROR) queued).
Proof.
  repeat match goal with |- (snd _ = _) /\ _ => split end; [..|split].
  - unfold Views.api_land_stats, Views.login_required,
      Views.api_land_stats_view. split_view.
  - unfold Views.region_analysis, Views.login_required,
      Views.region_analysis_view.
    destruct (Http.user_is_authenticated req); [|reflexivity].
    destruct (ORM.get_region (Http.db w) pk); reflexivity.
  - unfold Views.crop_analysis, Views.login_required,
      Views.crop_analysis_view.
    destruct (Http.user_is_authenticated req); [|reflexivity].
    destruct (ORM.get_crop (Http.db w) pk); reflexivity.
  - unfold Views.export_data, Views.login_required,
      Views.export_data_view.
    destruct (Http.user_is_authenticated req); [|reflexivity].
    repeat match goal with
           | |- context [String.eqb name ?s] => destruct (String.eqb name s)
           end; reflexivity.
  - unfold Api.api_analysis_data, Views.login_required,
      Api.api_analysis_data_view.
    destruct (Http.user_is_authenticated req); reflexivity.
  - reflexivity.
  - unfold Pages.dashboard, Pages.login_required, Pages.dashboard_view.
    destruct (Http.user_is_authenticated req); reflexivity.
  - unfold Pages.land_parcel_list, Pages.login_required,
      Pages.land_parcel_list_view.
    destruct (Http.user_is_authenticated req); reflexivity.
  - unfold Pages.land_parcel_detail, Pages.land_parcel_detail_view.
    destruct (Http.user_is_authenticated req); [|reflexivity].
    destruct (ORM.get_land_parcel (Http.db w) pk); [|reflexivity].
    destruct (Pages.land_parcel_detail_try _ _ _) as [[]|]; reflexivity.
  - unfold Views.download_analysis_report, Views.login_required,
      Views.download_analysis_report_view.
    destruct (Http.user_is_authenticated req);
      [|split; [reflexivity | exists []; rewrite app_nil_r; auto]].
    destruct (negb (REPORTLAB_AVAILABLE env));
      [split; [reflexivity | eexists; split; [reflexivity|]; simpl; auto]|].
    destruct (Views.download_analysis_report_try _ _ _); simpl.
    + split; [reflexivity | eexists; split; [reflexivity|]; simpl; auto].
    + split; [reflexivity | exists []; rewrite app_nil_r; auto].
  - unfold Views.download_parcel_report, Views.login_required,
      Views.download_parcel_report_view.
    destruct (Http.user_is_authenticated req);
      [|split; [reflexivity | exists []; rewrite app_nil_r; auto]].
    destruct (Views.download_parcel_report_try _ _ _); simpl.
    + split; [reflexivity | eexists; split; [reflexivity|]; simpl; auto].
    + split; [reflexivity | exists []; rewrite app_nil_r; auto].
Qed.
